(** * In-vitro electrophysiology analysis scripts: a shallow embedding

  The development follows the Python scripts

  - [scripts/classic_in_vitro/python/action_potential_analysis.py]
  - [scripts/mea_in_vitro/python/pharmacological_modulation_analysis.py]
  - [scripts/python/synaptic_input_output_analysis.py]

  Samples, frequencies and times are float64 values in the scripts.  They
  are modelled by the rationals they denote ([Q], exact arithmetic):
  rounding, infinities and NaN are outside the model.  Sample indices are
  [nat].  A Python call either returns a value or raises an exception
  ([Py.result]).

  The scripts are thin layers over scipy, elephant, pyabf and neo.  The
  library routines whose control flow decides a property (peak search,
  second-order-section filtering, differences, argument validation of the
  filter design) are embedded from the libraries' published sources; the
  numerical kernels that have no exact counterpart (Butterworth pole
  placement, least squares, file parsing) are functions of an [Env]
  record the scripts are run against. *)

From Stdlib Require Import String.
From Stdlib Require Import List Arith ZArith QArith Qabs Lia Lqa Bool Sorted.
From Equations Require Import Equations.
Import ListNotations.

Set Implicit Arguments.
Set Warnings "-register-all".
Close Scope Q_scope.

(* ===================================================================== *)
(** * Python values: exceptions and results *)
(* ===================================================================== *)

Module Py.

Local Open Scope string_scope.

(** An exception instance: its class, the classes it derives from (the
    method resolution order, most derived first, the class itself
    included), its message, and the exception it was raised [from]. *)
Inductive exn : Type :=
  Exn (cls : string) (mro : list string) (msg : string) (cause : option exn).

Definition exn_class (e : exn) : string := let 'Exn c _ _ _ := e in c.
Definition exn_mro (e : exn) : list string := let 'Exn _ m _ _ := e in m.
Definition exn_msg (e : exn) : string := let 'Exn _ _ m _ := e in m.
Definition exn_cause (e : exn) : option exn := let 'Exn _ _ _ c := e in c.

(** [isinstance(e, C)], the test of an [except C] clause. *)
Definition isinstance (e : exn) (c : string) : bool :=
  existsb (String.eqb c) (exn_mro e).

Inductive result (A : Type) : Type :=
| Ok (a : A)
| Raise (e : exn).
Arguments Ok {A} a.
Arguments Raise {A} e.

Definition bind {A B} (r : result A) (k : A -> result B) : result B :=
  match r with
  | Ok a => k a
  | Raise e => Raise e
  end.

Definition raises {A} (r : result A) (c : string) : Prop :=
  exists e, r = Raise e /\ exn_class e = c.

(** Built-in exception classes used by the scripts and their libraries. *)
Definition ValueError (msg : string) : exn :=
  Exn "ValueError" ["ValueError"; "Exception"; "BaseException"] msg None.
Definition IndexError (msg : string) : exn :=
  Exn "IndexError"
      ["IndexError"; "LookupError"; "Exception"; "BaseException"] msg None.
Definition RuntimeError (msg : string) : exn :=
  Exn "RuntimeError" ["RuntimeError"; "Exception"; "BaseException"] msg None.
Definition FileNotFoundError (msg : string) : exn :=
  Exn "FileNotFoundError"
      ["FileNotFoundError"; "OSError"; "Exception"; "BaseException"] msg None.

(** [xs[0]] on a Python sequence. *)
Definition item0 {A} (xs : list A) : result A :=
  match xs with
  | x :: _ => Ok x
  | [] => Raise (IndexError "list index out of range")
  end.

End Py.

Import Py.

Declare Scope py_scope.
Delimit Scope py_scope with py.
Notation "x <- c ;; k" := (Py.bind c (fun x => k))
  (at level 61, c at next level, right associativity) : py_scope.

(* ===================================================================== *)
(** * Numbers *)
(* ===================================================================== *)

(** [x < y] on samples, as a boolean. *)
Definition Qlt_bool (x y : Q) : bool :=
  (Qnum x * QDen y <? Qnum y * QDen x)%Z.

(** [x[i]] for an index the source keeps in range. *)
Definition at_ (x : list Q) (i : nat) : Q := nth i x 0%Q.

(** The float value of a sample index. *)
Definition of_index (i : nat) : Q := inject_Z (Z.of_nat i).

(* ===================================================================== *)
(** * scipy.signal: peak search *)
(* ===================================================================== *)

Module PeakFinding.

(** One entry of the three parallel arrays [midpoints], [left_edges],
    [right_edges] that [_local_maxima_1d] fills. *)
Record maximum : Type := Maximum {
  midpoint : nat;
  left_edge : nat;
  right_edge : nat
}.

(** The inner loop of [_local_maxima_1d]:
    [while i_ahead < i_max and x[i_ahead] == x[i]: i_ahead += 1]. *)
Equations? look_ahead (x : list Q) (i i_max i_ahead : nat) : nat
  by wf (i_max - i_ahead) lt :=
  look_ahead x i i_max i_ahead with lt_dec i_ahead i_max := {
    | left _ with Qeq_bool (at_ x i_ahead) (at_ x i) := {
        | true := look_ahead x i i_max (S i_ahead)
        | false := i_ahead }
    | right _ := i_ahead }.
Proof. lia. Qed.

(** The outer loop of [_local_maxima_1d], from the current sample [i]:
<<
    while i < i_max:
        if x[i - 1] < x[i]:
            i_ahead = i + 1
            while i_ahead < i_max and x[i_ahead] == x[i]: i_ahead += 1
            if x[i_ahead] < x[i]:
                left_edges[m] = i
                right_edges[m] = i_ahead - 1
                midpoints[m] = (left_edges[m] + right_edges[m]) // 2
                m += 1
                i = i_ahead
        i += 1
>>
    The entries written at positions [m], [m + 1], ... are returned in that
    order. *)
Equations? maxima_from (x : list Q) (i_max i : nat) : list maximum
  by wf (i_max - i) lt :=
  maxima_from x i_max i with lt_dec i i_max := {
    | left _ :=
        if Qlt_bool (at_ x (i - 1)) (at_ x i) then
          let i_ahead := look_ahead x i i_max (i + 1) in
          if Qlt_bool (at_ x i_ahead) (at_ x i) then
            Maximum ((i + (i_ahead - 1)) / 2) i (i_ahead - 1)
              :: maxima_from x i_max (i_ahead + 1)
          else maxima_from x i_max (i + 1)
        else maxima_from x i_max (i + 1)
    | right _ := [] }.
Proof.
  all: try lia.
  subst i_ahead. clear maxima_from.
  assert (Hge : forall y j m s, s <= look_ahead y j m s)
    by (clear; intros y j m s; funelim (look_ahead y j m s); lia).
  specialize (Hge x i i_max (i + 1)). lia.
Qed.

(** [_local_maxima_1d(x)]: the first sample and the last one cannot be
    maxima; [i_max = x.shape[0] - 1] is [-1] for an empty array, where the
    loop does not run either. *)
Definition local_maxima_1d (x : list Q) : list maximum :=
  maxima_from x (length x - 1) 1.

(** [_select_by_property(peak_properties, pmin, None)]:
    [keep = (pmin <= peak_properties)]. *)
Definition select_by_property (peak_properties : list Q) (pmin : Q) : list bool :=
  map (fun p => Qle_bool pmin p) peak_properties.

(** [array[keep]] for a boolean mask. *)
Fixpoint mask {A} (a : list A) (keep : list bool) : list A :=
  match a, keep with
  | v :: a', true :: keep' => v :: mask a' keep'
  | _ :: a', false :: keep' => mask a' keep'
  | _, _ => []
  end.

(** [find_peaks(x, height=height)] for a scalar or absent [height]: the
    peak indices and the [peak_heights] property. *)
Definition find_peaks (x : list Q) (height : option Q) : list nat * list Q :=
  let peaks := map midpoint (local_maxima_1d x) in
  match height with
  | None => (peaks, [])
  | Some hmin =>
      let peak_heights := map (at_ x) peaks in
      let keep := select_by_property peak_heights hmin in
      (mask peaks keep, mask peak_heights keep)
  end.

End PeakFinding.

(* ===================================================================== *)
(** * scipy.signal: filter design checks and second-order-section filtering *)
(* ===================================================================== *)

Module Filtering.

(** One row [[b0, b1, b2, 1, a1, a2]] of the array that
    [butter(..., output='sos')] returns.  The fourth column is the
    constant 1 that the design writes and that [sosfilt] insists on. *)
Record sos_section : Type := Sos { b0 : Q; b1 : Q; b2 : Q; a1 : Q; a2 : Q }.

(** The argument checks of [iirfilter], which [butter] calls, for a digital
    band-pass design with [fs] given:
<<
    Wn = 2*Wn/fs
    if numpy.any(Wn <= 0): raise ValueError(...)
    if Wn.size > 1 and not Wn[0] < Wn[1]: raise ValueError(...)
    ...
    if numpy.any(Wn <= 0) or numpy.any(Wn >= 1): raise ValueError(...)
>>
    followed by the design proper, [design N Wn0 Wn1].  The last message
    is abridged.  For [fs = 0] the quotient is 0 here and infinite or NaN
    in numpy; one of the checks raises ValueError in both. *)
Definition butter_bandpass
  (design : nat -> Q -> Q -> list sos_section)
  (N : nat) (freq_min freq_max fs : Q) : result (list sos_section) :=
  let Wn0 := (2 * freq_min / fs)%Q in
  let Wn1 := (2 * freq_max / fs)%Q in
  if Qle_bool Wn0 0 || Qle_bool Wn1 0 then
    Raise (ValueError "filter critical frequencies must be greater than 0")
  else if negb (Qlt_bool Wn0 Wn1) then
    Raise (ValueError "Wn[0] must be less than Wn[1]")
  else if (Qle_bool Wn0 0 || Qle_bool Wn1 0)
          || (Qle_bool 1 Wn0 || Qle_bool 1 Wn1) then
    Raise (ValueError "Digital filter critical frequencies must be 0 < Wn < fs/2")
  else Ok (design N Wn0 Wn1).

(** The innermost loop of [_sosfilt], over the sections, for one sample
    (direct form II transposed):
<<
    for s in range(n_sections):
        x_n = x[i, n]
        x[i, n] = sos[s, 0] * x_n + zi[i, s, 0]
        zi[i, s, 0] = sos[s, 1] * x_n - sos[s, 4] * x[i, n] + zi[i, s, 1]
        zi[i, s, 1] = sos[s, 2] * x_n - sos[s, 5] * x[i, n]
>>
    It returns the new value of the sample and the new delay values. *)
Fixpoint sections_step (sos : list sos_section) (zi : list (Q * Q)) (x_n : Q)
  : Q * list (Q * Q) :=
  match sos, zi with
  | s :: sos', (z0, z1) :: zi' =>
      let y := (b0 s * x_n + z0)%Q in
      let z0' := (b1 s * x_n - a1 s * y + z1)%Q in
      let z1' := (b2 s * x_n - a2 s * y)%Q in
      let (out, rest) := sections_step sos' zi' y in
      (out, (z0', z1') :: rest)
  | _, _ => (x_n, [])
  end.

(** The loop of [_sosfilt] over the samples. *)
Fixpoint sosfilt_from (sos : list sos_section) (zi : list (Q * Q)) (x : list Q)
  : list Q :=
  match x with
  | [] => []
  | x_n :: x' =>
      let (y, zi') := sections_step sos zi x_n in
      y :: sosfilt_from sos zi' x'
  end.

(** [sosfilt(sos, x)] with [zi=None]: the delay values start at zero. *)
Definition sosfilt (sos : list sos_section) (x : list Q) : list Q :=
  sosfilt_from sos (map (fun _ => (0, 0)%Q) sos) x.

End Filtering.

(* ===================================================================== *)
(** * numpy, quantities and elephant: differences and units *)
(* ===================================================================== *)

Module Intervals.

Inductive unit_of_time : Type := seconds | milliseconds.

(** A [quantities.Quantity] over a one-dimensional array. *)
Record quantity : Type := Quantity {
  magnitude : list Q;
  units : unit_of_time
}.

(** [np.diff(a)], that is [a[1:] - a[:-1]]. *)
Fixpoint diff (a : list Q) : list Q :=
  match a with
  | t0 :: ((t1 :: _) as rest) => (t1 - t0)%Q :: diff rest
  | _ => []
  end.

(** [elephant.statistics.isi(spiketrain)] for a plain [Quantity]:
    [intervals = np.diff(spiketrain)], with a warning (not an exception)
    when some interval is negative. *)
Definition isi (spiketrain : quantity) : quantity :=
  Quantity (diff (magnitude spiketrain)) (units spiketrain).

(** The factor of [rescale] between two units of time. *)
Definition conversion (from to : unit_of_time) : Q :=
  match from, to with
  | seconds, milliseconds => 1000
  | milliseconds, seconds => 1 # 1000
  | _, _ => 1
  end%Q.

(** [q.rescale(to)] *)
Definition rescale (q : quantity) (to : unit_of_time) : quantity :=
  Quantity (map (fun v => (v * conversion (units q) to)%Q) (magnitude q)) to.

End Intervals.

(* ===================================================================== *)
(** * The libraries the scripts run against *)
(* ===================================================================== *)

(** A Python number as [isinstance(_, (int, float))] sees it. *)
Inductive pynum : Type :=
| PyInt (z : Z)
| PyFloat (q : Q)
| PyOther (q : Q).   (* any other object holding a number, e.g. an array *)

Definition num_value (n : pynum) : Q :=
  match n with
  | PyInt z => inject_Z z
  | PyFloat q => q
  | PyOther q => q
  end.

(** What the scripts read from a [pyabf.ABF] object. *)
Record ABF : Type := {
  abf_data : list (list Q);    (* abf.data, one row per channel *)
  abf_dataRate : Z             (* abf.dataRate *)
}.

(** What the scripts read from a neo block. *)
Record AnalogSignal : Type := {
  sig_magnitude : list (list Q);       (* .magnitude, samples by channels *)
  sig_sampling_rate_magnitude : pynum  (* .sampling_rate.magnitude *)
}.
Record Segment : Type := { analogsignals : list AnalogSignal }.
Record Block : Type := { segments : list Segment }.
Record NeoReader : Type := { read_block : result Block }.

(** The model function handed to [curve_fit]. *)
Inductive model : Type :=
| hill_sigmoid       (* max_response / (1 + (EC50 / x) ** hill_slope) *)
| logistic_sigmoid.  (* c / (1 + np.exp(-(x - a) / b)) *)

(** The arguments of one [curve_fit] call. *)
Record fit_problem : Type := {
  fit_f : model;
  fit_xdata : list Q;
  fit_ydata : list Q;
  fit_p0 : option (list Q);
  fit_bounds : option (list Q * list Q)
}.

Definition fit_result : Type := (list Q * list (list Q))%type.

(** The library routines that are not embedded. *)
Record Env : Type := {
  butter_design : nat -> Q -> Q -> list Filtering.sos_section;
  detrend : list Q -> result (list Q);
  pyabf_ABF : string -> result ABF;
  NeoHdf5IO : string -> result NeoReader;
  curve_fit : fit_problem -> result fit_result
}.

(* ===================================================================== *)
(** * Effects: the log and the calls to the optimizer *)
(* ===================================================================== *)

Module Effects.

Inductive log_arg : Type :=
| AStr (s : string)
| ANum (n : pynum)
| AExn (e : exn).

Inductive event : Type :=
| LogInfo (template : string) (args : list log_arg)
| LogError (template : string) (args : list log_arg)
| CurveFitCall (p : fit_problem).

(** A computation that appends to the trace of events and returns or
    raises. *)
Definition M (A : Type) : Type := list event -> result A * list event.

Definition ret {A} (a : A) : M A := fun tr => (Ok a, tr).
Definition raise {A} (e : exn) : M A := fun tr => (Raise e, tr).
Definition lift {A} (r : result A) : M A := fun tr => (r, tr).

Definition bind {A B} (m : M A) (k : A -> M B) : M B :=
  fun tr =>
    match m tr with
    | (Ok a, tr') => k a tr'
    | (Raise e, tr') => (Raise e, tr')
    end.

Definition emit (ev : event) : M unit := fun tr => (Ok tt, tr ++ [ev]).

(** [try: body  except C as e: handler] *)
Definition try_except {A} (body : M A) (C : string) (handler : exn -> M A) : M A :=
  fun tr =>
    match body tr with
    | (Ok a, tr') => (Ok a, tr')
    | (Raise e, tr') =>
        if isinstance e C then handler e tr' else (Raise e, tr')
    end.

(** A call of [scipy.optimize.curve_fit], recorded in the trace. *)
Definition call_curve_fit (env : Env) (p : fit_problem) : M fit_result :=
  fun tr => (curve_fit env p, tr ++ [CurveFitCall p]).

(** The number of optimizer runs in a trace. *)
Definition is_fit_call (ev : event) : bool :=
  match ev with CurveFitCall _ => true | _ => false end.
Definition fit_calls (tr : list event) : nat :=
  List.length (filter is_fit_call tr).

End Effects.

Declare Scope eff_scope.
Delimit Scope eff_scope with eff.
Notation "x <- c ;; k" := (Effects.bind c (fun x => k))
  (at level 61, c at next level, right associativity) : eff_scope.

(* ===================================================================== *)
(** * action_potential_analysis.py: spike detection *)
(* ===================================================================== *)

Module ActionPotential.

(** [-signal] *)
Definition negate (signal : list Q) : list Q := map Qopp signal.

(** [find_peaks(-signal, height=abs(threshold))[0]] *)
Definition spike_indices (signal : list Q) (threshold : Q) : list nat :=
  fst (PeakFinding.find_peaks (negate signal) (Some (Qabs threshold))).

(** [detect_action_potentials(signal, sampling_rate, threshold)]:
    [spike_times = spike_indices / sampling_rate]. *)
Definition detect_action_potentials
  (signal : list Q) (sampling_rate : Q) (threshold : Q) : list Q :=
  map (fun i => (of_index i / sampling_rate)%Q) (spike_indices signal threshold).

(** [bandpass_filter(signal, sampling_rate, freq_min, freq_max)]:
<<
    sos = butter(4, [freq_min, freq_max], btype='bandpass',
                 fs=sampling_rate, output='sos')
    filtered_signal = sosfilt(sos, signal)
>> *)
Definition bandpass_filter (env : Env)
  (signal : list Q) (sampling_rate freq_min freq_max : Q) : result (list Q) :=
  (sos <- Filtering.butter_bandpass (butter_design env) 4
            freq_min freq_max sampling_rate ;;
   Ok (Filtering.sosfilt sos signal))%py.

(** [preprocess_signal(signal, sampling_rate, detrend_signal, freq_min,
    freq_max)]; the defaults are [True], [1] and [100]. *)
Definition preprocess_signal (env : Env)
  (signal : list Q) (sampling_rate : Q) (detrend_signal : bool)
  (freq_min freq_max : Q) : result (list Q) :=
  (signal <- (if detrend_signal then detrend env signal else Ok signal) ;;
   bandpass_filter env signal sampling_rate freq_min freq_max)%py.

(** [compute_isi(spike_times)]:
    [isi(spike_times * pq.s).rescale('ms')]. *)
Definition compute_isi (spike_times : list Q) : result Intervals.quantity :=
  Ok (Intervals.rescale
        (Intervals.isi (Intervals.Quantity spike_times Intervals.seconds))
        Intervals.milliseconds).

(** [load_abf_data(file_path)] *)
Definition load_abf_data (env : Env) (file_path : string)
  : result (list Q * pynum) :=
  (abf <- pyabf_ABF env file_path ;;
   signal <- item0 (abf_data abf) ;;
   let sampling_rate := PyInt (abf_dataRate abf) in
   Ok (signal, sampling_rate))%py.

(** [load_neo_data(file_path)] *)
Definition load_neo_data (env : Env) (file_path : string)
  : result (list Q * pynum) :=
  (reader <- NeoHdf5IO env file_path ;;
   block <- read_block reader ;;
   segment <- item0 (segments block) ;;
   s0 <- item0 (analogsignals segment) ;;
   let signal := concat (sig_magnitude s0) in
   s1 <- item0 (analogsignals segment) ;;
   let sampling_rate := sig_sampling_rate_magnitude s1 in
   Ok (signal, sampling_rate))%py.

(** [load_data(file_path, file_type)]: a table of loaders keyed by the file
    type, and [ValueError] for a key that is not in it. *)
Definition load_data (env : Env) (file_path file_type : string)
  : result (list Q * pynum) :=
  let loaders := [("abf", load_abf_data env); ("neo", load_neo_data env)]%string in
  match find (fun kv => String.eqb (fst kv) file_type) loaders with
  | Some (_, loader) => loader file_path
  | None => Raise (ValueError ("Unsupported file type: " ++ file_type))
  end.

End ActionPotential.

(* ===================================================================== *)
(** * pharmacological_modulation_analysis.py *)
(* ===================================================================== *)

Module Pharmacological.

Import Effects.
Local Open Scope string_scope.

(** [class DataLoadingError(Exception)] *)
Definition DataLoadingError (msg : string) (cause : option exn) : exn :=
  Exn "DataLoadingError"
      ["DataLoadingError"; "Exception"; "BaseException"] msg cause.

(** [class AnalysisError(Exception)] *)
Definition AnalysisError (msg : string) (cause : option exn) : exn :=
  Exn "AnalysisError" ["AnalysisError"; "Exception"; "BaseException"] msg cause.

(** The [signal] argument of [validate_data] as its first test sees it. *)
Inductive pysignal : Type :=
| Array1D (samples : list Q)  (* a one-dimensional numpy array *)
| NotArray1D.                 (* any other object: a list, an array of
                                 another number of dimensions *)

(** [validate_data(signal, sampling_rate)]:
<<
    if not isinstance(signal, np.ndarray) or signal.ndim != 1:
        logging.error(...); raise ValueError(...)
    if not isinstance(sampling_rate, (int, float)) or sampling_rate <= 0:
        logging.error(...); raise ValueError(...)
    logging.info(...)
>> *)
Definition validate_data (signal : pysignal) (sampling_rate : pynum) : M unit :=
  let is_array1d :=
    match signal with Array1D _ => true | NotArray1D => false end in
  let is_number :=
    match sampling_rate with PyInt _ | PyFloat _ => true | PyOther _ => false end in
  if negb is_array1d then
    (_ <- emit (LogError "Signal data must be a one-dimensional NumPy array." []) ;;
     raise (ValueError "Signal data must be a one-dimensional NumPy array."))%eff
  else if negb is_number || Qle_bool (num_value sampling_rate) 0 then
    (_ <- emit (LogError "Sampling rate must be a positive number." []) ;;
     raise (ValueError "Sampling rate must be a positive number."))%eff
  else
    emit (LogInfo "Data validation passed. Signal and sampling rate are valid." []).

(** [load_data(file_path, file_type)].  The signal it hands to
    [validate_data] is a row of the two-dimensional array [abf.data] or the
    result of [flatten()], a one-dimensional array in both cases. *)
Definition load_data (env : Env) (file_path file_type : string)
  : M (list Q * pynum) :=
  (loaded <-
     (if String.eqb file_type "abf" then
        try_except
          (abf <- lift (pyabf_ABF env file_path) ;;
           signal <- lift (item0 (abf_data abf)) ;;
           let sampling_rate := PyInt (abf_dataRate abf) in
           _ <- emit (LogInfo
                  "Loaded ABF data from {file_path} with sampling rate {sampling_rate} Hz."
                  [AStr file_path; ANum sampling_rate]) ;;
           ret (signal, sampling_rate))
          "Exception"
          (fun e =>
             _ <- emit (LogError "Failed to load ABF file: {e}" [AExn e]) ;;
             raise (DataLoadingError
                      ("Could not load ABF data from " ++ file_path ++ ".")
                      (Some e)))
      else if String.eqb file_type "neo" then
        try_except
          (reader <- lift (NeoHdf5IO env file_path) ;;
           block <- lift (read_block reader) ;;
           segment <- lift (item0 (segments block)) ;;
           s0 <- lift (item0 (analogsignals segment)) ;;
           let signal := concat (sig_magnitude s0) in
           s1 <- lift (item0 (analogsignals segment)) ;;
           let sampling_rate := sig_sampling_rate_magnitude s1 in
           _ <- emit (LogInfo
                  "Loaded Neo data from {file_path} with sampling rate {sampling_rate} Hz."
                  [AStr file_path; ANum sampling_rate]) ;;
           ret (signal, sampling_rate))
          "Exception"
          (fun e =>
             _ <- emit (LogError "Failed to load Neo file: {e}" [AExn e]) ;;
             raise (DataLoadingError
                      ("Could not load Neo data from " ++ file_path ++ ".")
                      (Some e)))
      else
        _ <- emit (LogError "Unsupported file type: {file_type}." [AStr file_type]) ;;
        raise (DataLoadingError
                 ("Unsupported file type: " ++ file_type
                    ++ ". Only 'abf' and 'neo' are supported.")
                 None)) ;;
   _ <- validate_data (Array1D (fst loaded)) (snd loaded) ;;
   ret loaded)%eff.

(** [preprocess_signal(signal, sampling_rate, detrend_signal, freq_min,
    freq_max)]: the filter is designed and applied in place. *)
Definition preprocess_signal (env : Env)
  (signal : list Q) (sampling_rate : Q) (detrend_signal : bool)
  (freq_min freq_max : Q) : M (list Q) :=
  (signal <- lift (if detrend_signal then detrend env signal else Ok signal) ;;
   sos <- lift (Filtering.butter_bandpass (butter_design env) 4
                  freq_min freq_max sampling_rate) ;;
   let preprocessed_signal := Filtering.sosfilt sos signal in
   _ <- emit (LogInfo
          "Signal preprocessed with bandpass filtering and detrending." []) ;;
   ret preprocessed_signal)%eff.

(** [fit_dose_response(doses, responses)]:
<<
    try:
        popt, pcov = curve_fit(sigmoid, doses, responses,
                               bounds=(0, [1000., 10., 100.]))
        logging.info("Successfully fitted dose-response curve.")
    except RuntimeError as e:
        logging.error(f"Failed to fit dose-response curve: {e}")
        raise AnalysisError("Curve fitting failed. ...") from e
    return popt, pcov
>> *)
Definition fit_dose_response (env : Env) (doses responses : list Q)
  : M fit_result :=
  (fitted <-
     try_except
       (r <- call_curve_fit env
               {| fit_f := hill_sigmoid;
                  fit_xdata := doses;
                  fit_ydata := responses;
                  fit_p0 := None;
                  fit_bounds := Some ([0; 0; 0], [1000; 10; 100])%Q |} ;;
        _ <- emit (LogInfo "Successfully fitted dose-response curve." []) ;;
        ret r)
       "RuntimeError"
       (fun e =>
          _ <- emit (LogError "Failed to fit dose-response curve: {e}" [AExn e]) ;;
          raise (AnalysisError
                   "Curve fitting failed. Check your dose-response data."
                   (Some e))) ;;
   ret fitted)%eff.

End Pharmacological.

(* ===================================================================== *)
(** * synaptic_input_output_analysis.py *)
(* ===================================================================== *)

Module SynapticIO.

Import Effects.
Local Open Scope string_scope.

(** A pandas DataFrame with numeric columns. *)
Definition DataFrame : Type := list (string * list Q).

Definition KeyError (msg : string) : exn :=
  Exn "KeyError" ["KeyError"; "LookupError"; "Exception"; "BaseException"]
      msg None.

(** [data[name].values] *)
Definition column (data : DataFrame) (name : string) : result (list Q) :=
  match find (fun kv => String.eqb (fst kv) name) data with
  | Some (_, values) => Ok values
  | None => Raise (KeyError name)
  end.

(** [analyze_synaptic_io(data)]:
<<
    input_data = data['Input'].values
    output_data = data['Output'].values
    popt, pcov = curve_fit(sigmoid, input_data, output_data, p0=[0, 1, 1])
>> *)
Definition analyze_synaptic_io (env : Env) (data : DataFrame) : M fit_result :=
  (input_data <- lift (column data "Input") ;;
   output_data <- lift (column data "Output") ;;
   call_curve_fit env
     {| fit_f := logistic_sigmoid;
        fit_xdata := input_data;
        fit_ydata := output_data;
        fit_p0 := Some [0; 1; 1]%Q;
        fit_bounds := None |})%eff.

End SynapticIO.

(* ===================================================================== *)
(** * pharmacological_modulation_analysis.py: response analysis *)
(* ===================================================================== *)

Module ResponseAnalysis.

Import Effects.
Local Open Scope string_scope.

Definition ZeroDivisionError (msg : string) : exn :=
  Exn "ZeroDivisionError"
      ["ZeroDivisionError"; "ArithmeticError"; "Exception"; "BaseException"]
      msg None.

(** How a slice bound is brought into the range [0 .. n] of a sequence of
    length [n]: a negative bound counts from the end. *)
Definition adjust_index (n v : Z) : Z :=
  if (v <? 0)%Z then Z.max 0 (v + n) else Z.min v n.

(** [x[start:stop]] *)
Definition slice (x : list Q) (start stop : Z) : list Q :=
  let n := Z.of_nat (length x) in
  let first := adjust_index n start in
  let last := adjust_index n stop in
  firstn (Z.to_nat (last - first)) (skipn (Z.to_nat first) x).

(** [len(find_peaks(window)[0]) / (stop - start) * sampling_rate], the
    expression of both firing rates; the quotient of two Python integers
    raises ZeroDivisionError for a zero divisor. *)
Definition window_rate (window : list Q) (start stop : Z) (sampling_rate : Z)
  : result Q :=
  let count := Z.of_nat (length (fst (PeakFinding.find_peaks window None))) in
  if (stop - start =? 0)%Z then Raise (ZeroDivisionError "division by zero")
  else Ok (inject_Z count / inject_Z (stop - start) * inject_Z sampling_rate)%Q.

(** [detect_firing_rate_change(signal, sampling_rate, baseline_period,
    drug_period)] for a sampling rate and period bounds that are Python
    integers, as [main] passes them (the default periods [(0, 10)] and
    [(10, 20)], and [abf.dataRate]): the products are exact integers and
    [int] leaves them as they are.  With a float among them the product is
    rounded before [int] truncates it, which the rationals do not
    reproduce; that case is not modelled.
<<
    baseline_start, baseline_end = int(baseline_period[0] * sampling_rate),
                                   int(baseline_period[1] * sampling_rate)
    drug_start, drug_end = int(drug_period[0] * sampling_rate),
                           int(drug_period[1] * sampling_rate)
    baseline_signal = signal[baseline_start:baseline_end]
    drug_signal = signal[drug_start:drug_end]
    baseline_rate = len(find_peaks(baseline_signal)[0])
                    / (baseline_end - baseline_start) * sampling_rate
    drug_rate = len(find_peaks(drug_signal)[0])
                / (drug_end - drug_start) * sampling_rate
    logging.info(...)
    return baseline_rate, drug_rate
>> *)
Definition detect_firing_rate_change
  (signal : list Q) (sampling_rate : Z) (baseline_period drug_period : Z * Z)
  : M (Q * Q) :=
  let baseline_start := (fst baseline_period * sampling_rate)%Z in
  let baseline_end := (snd baseline_period * sampling_rate)%Z in
  let drug_start := (fst drug_period * sampling_rate)%Z in
  let drug_end := (snd drug_period * sampling_rate)%Z in
  let baseline_signal := slice signal baseline_start baseline_end in
  let drug_signal := slice signal drug_start drug_end in
  (baseline_rate <- lift (window_rate baseline_signal
                            baseline_start baseline_end sampling_rate) ;;
   drug_rate <- lift (window_rate drug_signal
                        drug_start drug_end sampling_rate) ;;
   _ <- emit (LogInfo
          "Baseline firing rate: {baseline_rate:.2f} Hz, Drug period firing rate: {drug_rate:.2f} Hz."
          [ANum (PyFloat baseline_rate); ANum (PyFloat drug_rate)]) ;;
   ret (baseline_rate, drug_rate))%eff.

End ResponseAnalysis.

(* ===================================================================== *)
(** * network_dynamics_analysis.py: data loading *)
(* ===================================================================== *)

Module NetworkDynamics.

Import Effects.
Local Open Scope string_scope.

(** [load_data(file_path)]:
<<
    try:
        reader = neo.io.NeoHdf5IO(file_path)
        block = reader.read_block()
        segment = block.segments[0]
        analog_signal = np.array(segment.analogsignals[0].magnitude).flatten()
        return analog_signal
    except Exception as e:
        logging.error(f"Data loading error: {e}")
        raise ValueError("Failed to load data. Check file format and path.")
>> *)
Definition load_data (env : Env) (file_path : string) : M (list Q) :=
  try_except
    (reader <- lift (NeoHdf5IO env file_path) ;;
     block <- lift (read_block reader) ;;
     segment <- lift (item0 (segments block)) ;;
     s0 <- lift (item0 (analogsignals segment)) ;;
     let analog_signal := concat (sig_magnitude s0) in
     ret analog_signal)%eff
    "Exception"
    (fun e =>
       _ <- emit (LogError "Data loading error: {e}" [AExn e]) ;;
       raise (ValueError "Failed to load data. Check file format and path."))%eff.

End NetworkDynamics.

(* ===================================================================== *)
(** * Notions used to state the properties *)
(* ===================================================================== *)

(** A flat local maximum of [x] that spans the samples [l .. r]: the sample
    before it and the sample after it are strictly smaller, and neither end
    of the array belongs to it. *)
Definition plateau (x : list Q) (l r : nat) : Prop :=
  1 <= l /\ l <= r /\ r + 1 < length x /\
  (at_ x (l - 1) < at_ x l)%Q /\
  (forall k, l <= k <= r -> (at_ x k == at_ x l)%Q) /\
  (at_ x (r + 1) < at_ x l)%Q.

(** The index that stands for a flat maximum: its middle sample, rounded
    down. *)
Definition is_peak (x : list Q) (i : nat) : Prop :=
  exists l r, plateau x l r /\ i = (l + r) / 2.

(** What the search records is a flat maximum, stored with its edges. *)
Definition recorded (x : list Q) (i : nat) (m : PeakFinding.maximum) : Prop :=
  i <= PeakFinding.left_edge m /\
  plateau x (PeakFinding.left_edge m) (PeakFinding.right_edge m) /\
  PeakFinding.midpoint m = (PeakFinding.left_edge m + PeakFinding.right_edge m) / 2.

(** The timestamp of a sample index. *)
Definition time_of (sampling_rate : Q) (i : nat) : Q :=
  (of_index i / sampling_rate)%Q.

(** Detection as the specification words it: the timestamps of the peaks
    of the sign-inverted signal whose height stands in relation [bound] to
    the magnitude of the threshold, in ascending order of index. *)
Definition detection_spec (bound : Q -> Q -> Prop)
  (signal : list Q) (sampling_rate threshold : Q) (out : list Q) : Prop :=
  exists idx,
    StronglySorted lt idx /\
    (forall i, In i idx <->
       is_peak (ActionPotential.negate signal) i /\
       bound (Qabs threshold) (at_ (ActionPotential.negate signal) i)) /\
    out = map (time_of sampling_rate) idx.

(** The cutoff pair the specification calls valid. *)
Definition valid_band (sampling_rate freq_min freq_max : Q) : Prop :=
  (0 < freq_min)%Q /\ (freq_min < freq_max)%Q /\ (freq_max < sampling_rate / 2)%Q.

(** The detrending stage of both [preprocess_signal] functions. *)
Definition detrend_stage (env : Env) (detrend_signal : bool) (signal : list Q)
  : result (list Q) :=
  if detrend_signal then detrend env signal else Ok signal.

(** The optimizer call of [fit_dose_response]. *)
Definition dose_response_problem (doses responses : list Q) : fit_problem :=
  {| fit_f := hill_sigmoid;
     fit_xdata := doses;
     fit_ydata := responses;
     fit_p0 := None;
     fit_bounds := Some ([0; 0; 0], [1000; 10; 100])%Q |}.

(** The optimizer call of [analyze_synaptic_io]. *)
Definition synaptic_io_problem (input_data output_data : list Q) : fit_problem :=
  {| fit_f := logistic_sigmoid;
     fit_xdata := input_data;
     fit_ydata := output_data;
     fit_p0 := Some [0; 1; 1]%Q;
     fit_bounds := None |}.

(** The sum of a sequence of values. *)
Definition Qsum (l : list Q) : Q := fold_right Qplus 0%Q l.

(** Delay values that are all zero. *)
Definition at_rest (zi : list (Q * Q)) : Prop :=
  Forall (fun p => (fst p == 0)%Q /\ (snd p == 0)%Q) zi.

(** The signal [a * x + b * y], sample by sample. *)
Definition mix (a : Q) (x : list Q) (b : Q) (y : list Q) : list Q :=
  map (fun p => (a * fst p + b * snd p)%Q) (combine x y).

(** Delay values that are the combination [a * z1 + b * z2] of two others,
    section by section. *)
Inductive mixed (a b : Q) :
  list (Q * Q) -> list (Q * Q) -> list (Q * Q) -> Prop :=
| mixed_nil : mixed a b [] [] []
| mixed_cons p1 p2 p3 z1 z2 z3 :
    (fst p3 == a * fst p1 + b * fst p2)%Q ->
    (snd p3 == a * snd p1 + b * snd p2)%Q ->
    mixed a b z1 z2 z3 ->
    mixed a b (p1 :: z1) (p2 :: z2) (p3 :: z3).

(** What [isinstance(signal, np.ndarray)] and [signal.ndim == 1] accept. *)
Definition is_array1d (signal : Pharmacological.pysignal) : Prop :=
  match signal with
  | Pharmacological.Array1D _ => True
  | Pharmacological.NotArray1D => False
  end.

(** What [isinstance(n, (int, float))] accepts. *)
Definition is_py_number (n : pynum) : Prop :=
  match n with
  | PyInt _ | PyFloat _ => True
  | PyOther _ => False
  end.

(** The format libraries raise exceptions derived from [Exception] only. *)
Definition library_exceptions (env : Env) : Prop :=
  (forall file_path e,
     pyabf_ABF env file_path = Raise e -> isinstance e "Exception" = true) /\
  (forall file_path e,
     NeoHdf5IO env file_path = Raise e -> isinstance e "Exception" = true) /\
  (forall file_path reader e,
     NeoHdf5IO env file_path = Ok reader ->
     read_block reader = Raise e -> isinstance e "Exception" = true).

(* ===================================================================== *)
(** * Example data *)
(* ===================================================================== *)

(** An environment for examples: the filter design returns pass-through
    sections, detrending returns its input, no file exists and the optimizer
    never converges. *)
Definition bare_env : Env := {|
  butter_design := fun N _ _ => repeat (Filtering.Sos 1 0 0 0 0) N;
  detrend := fun x => Ok x;
  pyabf_ABF := fun file_path =>
    Raise (ValueError ("ABF file does not exist: " ++ file_path));
  NeoHdf5IO := fun file_path =>
    Raise (FileNotFoundError ("No such file: " ++ file_path));
  curve_fit := fun _ =>
    Raise (RuntimeError
             "Optimal parameters not found: The maximum number of function evaluations is exceeded.")
|}.

(** Two negative-going spikes that reach below the threshold [t], two
    samples apart. *)
Definition two_spikes (t : Q) : list Q :=
  [0; - (Qabs t + 1); 0; - (Qabs t + 1); 0]%Q.

(** A recording with one flat negative-going spike, three samples wide. *)
Definition flat_spike : list Q := [0; -1; -1; -1; 0]%Q.

(** A small input-output table. *)
Definition io_table : SynapticIO.DataFrame :=
  [("Input"%string, [1; 2; 3; 4]%Q); ("Output"%string, [0; 1; 1; 0]%Q)].

(** An environment with recordings: [cell.abf] holds two channels sampled
    at 20 kHz, [silent.abf] reports a sampling rate of 0, [empty.h5] is a
    container without segments and [bare.h5] one whose segment holds no
    signal; other paths do not exist.  The optimizer rejects empty data and
    otherwise returns fixed parameters. *)
Definition lab_env : Env := {|
  butter_design := fun N _ _ => repeat (Filtering.Sos 1 0 0 0 0) N;
  detrend := fun x => Ok x;
  pyabf_ABF := fun file_path =>
    if String.eqb file_path "cell.abf" then
      Ok {| abf_data := [[0; -40; 0]; [1; 1; 1]]%Q; abf_dataRate := 20000 |}
    else if String.eqb file_path "silent.abf" then
      Ok {| abf_data := [[0; -40; 0]]%Q; abf_dataRate := 0 |}
    else Raise (ValueError ("ABF file does not exist: " ++ file_path));
  NeoHdf5IO := fun file_path =>
    if String.eqb file_path "empty.h5" then
      Ok {| read_block := Ok {| segments := [] |} |}
    else if String.eqb file_path "bare.h5" then
      Ok {| read_block := Ok {| segments := [ {| analogsignals := [] |} ] |} |}
    else Raise (FileNotFoundError ("No such file: " ++ file_path));
  curve_fit := fun p =>
    match fit_ydata p with
    | [] => Raise (ValueError "`ydata` must not be empty!")
    | _ => Ok ([1; 1; 1]%Q, [[1; 0; 0]; [0; 1; 0]; [0; 0; 1]]%Q)
    end
|}.

(* ===================================================================== *)
(** * Properties of the peak search *)
(* ===================================================================== *)

Lemma Qlt_bool_iff (x y : Q) : Qlt_bool x y = true <-> (x < y)%Q.
Proof. unfold Qlt_bool, Qlt. apply Z.ltb_lt. Qed.

Lemma Qlt_bool_false_iff (x y : Q) : Qlt_bool x y = false <-> (y <= x)%Q.
Proof. unfold Qlt_bool, Qle. rewrite Z.ltb_ge. reflexivity. Qed.

Module PeakFacts.

Import PeakFinding.

Lemma look_ahead_ge x i i_max i_ahead :
  i_ahead <= look_ahead x i i_max i_ahead.
Proof.
  funelim (look_ahead x i i_max i_ahead); lia.
Qed.

(** The loop read as one conditional step. *)
Lemma look_ahead_eq x i i_max i_ahead :
  look_ahead x i i_max i_ahead =
  if (i_ahead <? i_max) && Qeq_bool (at_ x i_ahead) (at_ x i)
  then look_ahead x i i_max (S i_ahead) else i_ahead.
Proof.
  funelim (look_ahead x i i_max i_ahead).
  - destruct (Nat.ltb_spec i_ahead i_max); [lia | reflexivity].
  - rewrite Heq. destruct (Nat.ltb_spec i_ahead i_max); [| lia].
    simpl. congruence.
  - rewrite Heq. rewrite andb_false_r. reflexivity.
Qed.

Lemma look_ahead_spec x i i_max s :
  s <= i_max ->
    s <= look_ahead x i i_max s <= i_max /\
    (forall k, s <= k < look_ahead x i i_max s -> (at_ x k == at_ x i)%Q) /\
    (look_ahead x i i_max s < i_max ->
     ~ (at_ x (look_ahead x i i_max s) == at_ x i)%Q).
Proof.
  remember (i_max - s) as n eqn:Hn. symmetry in Hn. revert s Hn.
  induction n as [| n IH]; intros s Hn Hs; rewrite look_ahead_eq.
  - replace (s <? i_max) with false by (symmetry; apply Nat.ltb_ge; lia).
    simpl. repeat split; lia.
  - replace (s <? i_max) with true by (symmetry; apply Nat.ltb_lt; lia).
    simpl. destruct (Qeq_bool (at_ x s) (at_ x i)) eqn:E.
    + destruct (IH (S s)) as (Hb & Heq & Hstop); try lia.
      repeat split; try lia; auto.
      intros k Hk. destruct (Nat.eq_dec k s) as [-> | Hne].
      * now apply Qeq_bool_iff.
      * apply Heq. lia.
    + repeat split; try lia.
      intros _ Habs. apply Qeq_bool_iff in Habs. congruence.
Qed.

(** One turn of the outer loop. *)
Lemma maxima_from_eq x i_max i :
  maxima_from x i_max i =
  if i <? i_max then
    if Qlt_bool (at_ x (i - 1)) (at_ x i) then
      let i_ahead := look_ahead x i i_max (i + 1) in
      if Qlt_bool (at_ x i_ahead) (at_ x i) then
        Maximum ((i + (i_ahead - 1)) / 2) i (i_ahead - 1)
          :: maxima_from x i_max (i_ahead + 1)
      else maxima_from x i_max (i + 1)
    else maxima_from x i_max (i + 1)
  else [].
Proof.
  funelim (maxima_from x i_max i).
  - replace (i <? i_max) with true by (symmetry; apply Nat.ltb_lt; lia).
    reflexivity.
  - replace (i <? i_max) with false by (symmetry; apply Nat.ltb_ge; lia).
    reflexivity.
Qed.


Lemma midpoint_bounds l r : l <= r -> l <= (l + r) / 2 <= r.
Proof.
  intros H. split.
  - apply Nat.div_le_lower_bound; lia.
  - apply Nat.Div0.div_le_upper_bound; lia.
Qed.

Lemma recorded_weaken x i j m : i <= j -> recorded x j m -> recorded x i m.
Proof. unfold recorded. intros ? (? & ? & ?). split; [lia | split; assumption]. Qed.

Section Search.

Variable x : list Q.
Let i_max := length x - 1.

Lemma maxima_from_sound :
  forall n i, i_max - i <= n -> 1 <= i ->
    Forall (recorded x i) (maxima_from x i_max i).
Proof.
  induction n as [| n IH]; intros i Hn Hi; rewrite maxima_from_eq.
  - replace (i <? i_max) with false by (symmetry; apply Nat.ltb_ge; lia).
    constructor.
  - destruct (Nat.ltb_spec i i_max) as [Hlt | Hge]; [| constructor].
    assert (Hnext : Forall (recorded x i) (maxima_from x i_max (i + 1))).
    { eapply Forall_impl; [| apply (IH (i + 1)); lia].
      intros m. apply recorded_weaken. lia. }
    destruct (Qlt_bool (at_ x (i - 1)) (at_ x i)) eqn:Hrise; [| exact Hnext].
    cbv zeta.
    destruct (@look_ahead_spec x i i_max (i + 1))
      as (Hb & Heq & _); try lia.
    set (a := look_ahead x i i_max (i + 1)) in *.
    destruct (Qlt_bool (at_ x a) (at_ x i)) eqn:Hdrop; [| exact Hnext].
    constructor.
    + unfold recorded; simpl. split; [lia |]. split; [| reflexivity].
      unfold plateau. repeat split; try (unfold i_max in *; lia).
      * now apply Qlt_bool_iff.
      * intros k Hk. destruct (Nat.eq_dec k i) as [-> | Hne].
        -- reflexivity.
        -- apply Heq. lia.
      * replace (a - 1 + 1) with a by lia. now apply Qlt_bool_iff.
    + eapply Forall_impl; [| apply (IH (a + 1)); lia].
      intros m. apply recorded_weaken. lia.
Qed.

Lemma maxima_from_sorted :
  forall n i, i_max - i <= n -> 1 <= i ->
    StronglySorted lt (map midpoint (maxima_from x i_max i)).
Proof.
  induction n as [| n IH]; intros i Hn Hi; rewrite maxima_from_eq.
  - replace (i <? i_max) with false by (symmetry; apply Nat.ltb_ge; lia).
    constructor.
  - destruct (Nat.ltb_spec i i_max) as [Hlt | Hge]; [| constructor].
    assert (Hnext : StronglySorted lt (map midpoint (maxima_from x i_max (i + 1))))
      by (apply IH; lia).
    destruct (Qlt_bool (at_ x (i - 1)) (at_ x i)); [| exact Hnext].
    cbv zeta.
    pose proof (look_ahead_ge x i i_max (i + 1)) as Hge.
    set (a := look_ahead x i i_max (i + 1)) in *.
    destruct (Qlt_bool (at_ x a) (at_ x i)); [| exact Hnext].
    cbn [map midpoint]. constructor; [apply IH; lia |].
    apply Forall_map.
    eapply Forall_impl; [| apply (maxima_from_sound (n := i_max - (a + 1))); lia].
    intros m (Hl & (_ & Hlr & _) & Hm). rewrite Hm.
    pose proof (midpoint_bounds Hlr).
    pose proof (@midpoint_bounds i (a - 1) ltac:(lia)). lia.
Qed.

(** From the left edge of a flat maximum the inner loop stops on the sample
    after its right edge. *)
Lemma look_ahead_plateau l r :
  plateau x l r -> look_ahead x l i_max (l + 1) = r + 1.
Proof.
  intros (Hl & Hlr & Hr & Hrise & Hflat & Hdrop).
  destruct (@look_ahead_spec x l i_max (l + 1))
    as (Hb & Heq & Hstop); try (unfold i_max; lia).
  set (a := look_ahead x l i_max (l + 1)) in *.
  destruct (Nat.lt_trichotomy a (r + 1)) as [Hlt | [Heq' | Hgt]]; [| assumption |].
  - exfalso. apply Hstop; [unfold i_max; lia |]. apply Hflat. lia.
  - exfalso. specialize (Heq (r + 1) ltac:(lia)).
    rewrite Heq in Hdrop. revert Hdrop. apply Qlt_irrefl.
Qed.

Lemma maxima_from_complete l r :
  plateau x l r ->
  forall n i, i_max - i <= n -> 1 <= i <= l ->
    In (Maximum ((l + r) / 2) l r) (maxima_from x i_max i).
Proof.
  intros Hp. pose proof Hp as (Hl & Hlr & Hr & Hrise & Hflat & Hdrop).
  induction n as [| n IH]; intros i Hn Hi; rewrite maxima_from_eq.
  - unfold i_max in *. exfalso. lia.
  - destruct (Nat.ltb_spec i i_max) as [Hlt | Hge];
      [| unfold i_max in *; exfalso; lia].
    destruct (Nat.eq_dec i l) as [-> | Hne].
    + apply Qlt_bool_iff in Hrise. rewrite Hrise. cbv zeta.
      rewrite (look_ahead_plateau Hp).
      apply Qlt_bool_iff in Hdrop. rewrite Hdrop.
      left. f_equal; f_equal; lia.
    + assert (Hnext : In (Maximum ((l + r) / 2) l r)
                         (maxima_from x i_max (i + 1))) by (apply IH; lia).
      destruct (Qlt_bool (at_ x (i - 1)) (at_ x i)) eqn:Hrise'; [| exact Hnext].
      cbv zeta.
      destruct (@look_ahead_spec x i i_max (i + 1))
        as (Hb & Heq & _); try lia.
      set (a := look_ahead x i i_max (i + 1)) in *.
      destruct (Qlt_bool (at_ x a) (at_ x i)) eqn:Hdrop'; [| exact Hnext].
      right. apply IH; [lia |].
      apply Qlt_bool_iff in Hdrop'.
      assert (Hflat' : forall k, i <= k < a -> (at_ x k == at_ x i)%Q).
      { intros k Hk. destruct (Nat.eq_dec k i) as [-> | ?];
          [reflexivity | apply Heq; lia]. }
      destruct (Nat.le_gt_cases l a) as [Hla | Hla]; [exfalso | lia].
      destruct (Nat.eq_dec l a) as [Hla' | Hne'].
      * rewrite Hla' in Hrise. rewrite (Hflat' (a - 1)) in Hrise by lia.
        apply (Qlt_irrefl (at_ x i)).
        apply Qlt_trans with (at_ x a); assumption.
      * rewrite (Hflat' (l - 1)), (Hflat' l) in Hrise by lia.
        revert Hrise. apply Qlt_irrefl.
Qed.

End Search.

(** Two flat maxima that share a sample are the same one. *)
Lemma plateau_unique x l r l' r' k :
  plateau x l r -> plateau x l' r' -> l <= k <= r -> l' <= k <= r' ->
  l = l' /\ r = r'.
Proof.
  intros (Hl & Hlr & Hr & Hrise & Hflat & Hdrop)
         (Hl' & Hlr' & Hr' & Hrise' & Hflat' & Hdrop') Hk Hk'.
  assert (Hsame : (at_ x l == at_ x l')%Q).
  { rewrite <- (Hflat k Hk). apply Hflat'. exact Hk'. }
  split.
  - destruct (Nat.lt_trichotomy l l') as [Hlt | [Heq | Hgt]]; [exfalso | assumption | exfalso].
    + rewrite (Hflat (l' - 1)), <- Hsame in Hrise' by lia.
      revert Hrise'. apply Qlt_irrefl.
    + rewrite (Hflat' (l - 1)), Hsame in Hrise by lia.
      revert Hrise. apply Qlt_irrefl.
  - destruct (Nat.lt_trichotomy r r') as [Hlt | [Heq | Hgt]]; [exfalso | assumption | exfalso].
    + rewrite (Hflat' (r + 1)), <- Hsame in Hdrop by lia.
      revert Hdrop. apply Qlt_irrefl.
    + rewrite (Hflat (r' + 1)), Hsame in Hdrop' by lia.
      revert Hdrop'. apply Qlt_irrefl.
Qed.

Lemma mask_select (f : nat -> Q) (hmin : Q) (peaks : list nat) :
  mask peaks (select_by_property (map f peaks) hmin)
  = filter (fun p => Qle_bool hmin (f p)) peaks.
Proof.
  unfold select_by_property.
  induction peaks as [| p peaks IH]; simpl; [reflexivity |].
  destruct (Qle_bool hmin (f p)); rewrite IH; reflexivity.
Qed.

(** The peaks [find_peaks] returns for a height bound, as a filter. *)
Lemma find_peaks_height x hmin :
  fst (find_peaks x (Some hmin))
  = filter (fun p => Qle_bool hmin (at_ x p)) (map midpoint (local_maxima_1d x)).
Proof. unfold find_peaks. simpl. apply mask_select. Qed.

Lemma local_maxima_iff x i :
  In i (map midpoint (local_maxima_1d x)) <-> is_peak x i.
Proof.
  unfold local_maxima_1d, is_peak. rewrite in_map_iff. split.
  - intros (m & Hm & Hin).
    pose proof (@maxima_from_sound x (length x - 1) 1 ltac:(lia) ltac:(lia)) as Hs.
    rewrite Forall_forall in Hs. destruct (Hs m Hin) as (_ & Hp & Hmid).
    exists (left_edge m), (right_edge m). split; [assumption | congruence].
  - intros (l & r & Hp & ->).
    exists (Maximum ((l + r) / 2) l r). split; [reflexivity |].
    apply (@maxima_from_complete x l r Hp (length x - 1)); [lia |].
    destruct Hp as (? & _). lia.
Qed.

Lemma local_maxima_sorted x :
  StronglySorted lt (map midpoint (local_maxima_1d x)).
Proof. apply (@maxima_from_sorted x (length x - 1)); lia. Qed.

Lemma StronglySorted_filter {A} (R : A -> A -> Prop) (f : A -> bool) l :
  StronglySorted R l -> StronglySorted R (filter f l).
Proof.
  induction 1 as [| a l Hs IH Hall]; simpl; [constructor |].
  destruct (f a); [| assumption].
  constructor; [assumption |].
  rewrite Forall_forall in *. intros y Hy. apply filter_In in Hy. apply Hall, Hy.
Qed.

End PeakFacts.

(* ===================================================================== *)
(** * Spike detection *)
(* ===================================================================== *)

Module DetectionFacts.

Import PeakFinding PeakFacts ActionPotential.

Lemma spike_indices_iff signal threshold i :
  In i (spike_indices signal threshold) <->
  is_peak (negate signal) i /\ (Qabs threshold <= at_ (negate signal) i)%Q.
Proof.
  unfold spike_indices. rewrite find_peaks_height, filter_In, local_maxima_iff.
  rewrite Qle_bool_iff. reflexivity.
Qed.

Lemma spike_indices_sorted signal threshold :
  StronglySorted lt (spike_indices signal threshold).
Proof.
  unfold spike_indices. rewrite find_peaks_height.
  apply StronglySorted_filter, local_maxima_sorted.
Qed.

(** C3, as amended: spike detection returns exactly the timestamps (index
    divided by sampling rate) of the local-maximum peaks of the sign-inverted
    signal whose height is at least the magnitude of the threshold. *)
Theorem detect_action_potentials_spec signal sampling_rate threshold :
  detection_spec Qle signal sampling_rate threshold
    (detect_action_potentials signal sampling_rate threshold).
Proof.
  exists (spike_indices signal threshold). split; [| split].
  - apply spike_indices_sorted.
  - intros i. apply spike_indices_iff.
  - reflexivity.
Qed.

(** C3, as written: the bound is strict.  A peak whose height equals the
    magnitude of the threshold is reported all the same. *)
Lemma detect_action_potentials_not_strict :
  ~ detection_spec Qlt [0; -1; 0]%Q 1%Q (-1)%Q
      (detect_action_potentials [0; -1; 0]%Q 1%Q (-1)%Q).
Proof.
  intros (idx & _ & Hiff & Hout).
  destruct idx as [| i idx]; [vm_compute in Hout; discriminate Hout |].
  destruct (proj1 (Hiff i) (or_introl eq_refl)) as (_ & Hlt).
  revert Hlt. apply Qle_not_lt.
  destruct i as [| [| [| [| i]]]]; vm_compute; intros H; discriminate H.
Qed.

(** C4, as written: of a flat maximum above the threshold the first sample
    would be reported.  On [flat_spike] the flat maximum spans the samples
    1 to 3 and the sample reported is 2. *)
Lemma flat_peak_not_first :
  plateau (negate flat_spike) 1 3 /\
  (Qabs (1 # 2) < at_ (negate flat_spike) 1)%Q /\
  spike_indices flat_spike (1 # 2) = [2] /\
  ~ In 1 (spike_indices flat_spike (1 # 2)).
Proof.
  split; [| split; [| split]].
  - unfold plateau. repeat split; try (vm_compute; lia); try reflexivity.
    intros k Hk.
    assert (Hcases : k = 1 \/ k = 2 \/ k = 3) by lia.
    destruct Hcases as [-> | [-> | ->]]; reflexivity.
  - reflexivity.
  - reflexivity.
  - vm_compute. intros [H | []]. discriminate H.
Qed.

(** C4, as amended: of a flat local maximum of the sign-inverted signal
    that reaches the threshold, spike detection reports the middle sample,
    rounded down, and no other sample; that is the first sample when the
    flat maximum is two samples wide. *)
Theorem flat_peak_reported_at_midpoint signal sampling_rate threshold l r :
  plateau (negate signal) l r ->
  (Qabs threshold <= at_ (negate signal) l)%Q ->
  In ((l + r) / 2) (spike_indices signal threshold) /\
  (forall k, l <= k <= r ->
     In k (spike_indices signal threshold) -> k = (l + r) / 2) /\
  In (time_of sampling_rate ((l + r) / 2))
     (detect_action_potentials signal sampling_rate threshold) /\
  (r = l + 1 -> (l + r) / 2 = l).
Proof.
  intros Hp Hh.
  assert (Hlr : l <= r) by (destruct Hp as (_ & ? & _); assumption).
  pose proof (midpoint_bounds Hlr) as Hmid.
  assert (Hin : In ((l + r) / 2) (spike_indices signal threshold)).
  { apply spike_indices_iff. split.
    - exists l, r. split; [assumption | reflexivity].
    - destruct Hp as (_ & _ & _ & _ & Hflat & _).
      rewrite (Hflat _ Hmid). exact Hh. }
  split; [exact Hin | split; [| split]].
  - intros k Hk Hink. apply spike_indices_iff in Hink.
    destruct Hink as ((l' & r' & Hp' & ->) & _).
    assert (Hlr' : l' <= r') by (destruct Hp' as (_ & ? & _); assumption).
    destruct (plateau_unique Hp Hp' Hk (midpoint_bounds Hlr')) as [-> ->].
    reflexivity.
  - unfold detect_action_potentials.
    apply (in_map (fun i => (of_index i / sampling_rate)%Q)). exact Hin.
  - intros ->. replace (l + (l + 1)) with (1 + l * 2) by lia.
    rewrite Nat.div_add by lia. reflexivity.
Qed.

(** The theorem at a flat spike two samples wide: sample 1 is reported. *)
Lemma flat_peak_reported_at_midpoint_witness :
  plateau (negate [0; -1; -1; 0]%Q) 1 2 /\
  (Qabs (1 # 2) <= at_ (negate [0; -1; -1; 0]%Q) 1)%Q /\
  In ((1 + 2) / 2) (spike_indices [0; -1; -1; 0]%Q (1 # 2)) /\
  (forall k, 1 <= k <= 2 ->
     In k (spike_indices [0; -1; -1; 0]%Q (1 # 2)) -> k = (1 + 2) / 2) /\
  In (time_of 1000 ((1 + 2) / 2))
     (detect_action_potentials [0; -1; -1; 0]%Q 1000 (1 # 2)) /\
  (2 = 1 + 1 -> (1 + 2) / 2 = 1).
Proof.
  assert (Hp : plateau (negate [0; -1; -1; 0]%Q) 1 2).
  { unfold plateau. repeat split; try (vm_compute; lia); try reflexivity.
    intros k Hk.
    assert (Hcases : k = 1 \/ k = 2) by lia.
    destruct Hcases as [-> | ->]; reflexivity. }
  assert (Hh : (Qabs (1 # 2) <= at_ (negate [0; -1; -1; 0]%Q) 1)%Q)
    by (vm_compute; discriminate).
  split; [exact Hp | split; [exact Hh |]].
  exact (@flat_peak_reported_at_midpoint [0; -1; -1; 0]%Q 1000 (1 # 2) 1 2 Hp Hh).
Defined.

Lemma of_index_lt i j : i < j -> (of_index i < of_index j)%Q.
Proof. intros H. unfold of_index. rewrite <- Zlt_Qlt. lia. Qed.

Lemma time_of_lt sampling_rate i j :
  (0 < sampling_rate)%Q -> i < j ->
  (time_of sampling_rate i < time_of sampling_rate j)%Q.
Proof.
  intros Hr Hij. unfold time_of, Qdiv.
  apply Qmult_lt_compat_r.
  - apply Qinv_lt_0_compat. exact Hr.
  - apply of_index_lt. exact Hij.
Qed.

Lemma StronglySorted_map_lt (f : nat -> Q) l :
  (forall i j, i < j -> (f i < f j)%Q) ->
  StronglySorted lt l -> StronglySorted Qlt (map f l).
Proof.
  intros Hf. induction 1 as [| a l Hs IH Hall]; simpl; constructor.
  - assumption.
  - apply Forall_map. eapply Forall_impl; [| exact Hall].
    intros b. apply Hf.
Qed.

(** C9: for a positive sampling rate the timestamps spike detection
    returns are strictly increasing, each one greater than all before it. *)
Theorem spike_times_increasing signal sampling_rate threshold :
  (0 < sampling_rate)%Q ->
  StronglySorted Qlt (detect_action_potentials signal sampling_rate threshold).
Proof.
  intros Hr. unfold detect_action_potentials.
  apply (@StronglySorted_map_lt (time_of sampling_rate)).
  - intros i j. apply time_of_lt. exact Hr.
  - apply spike_indices_sorted.
Qed.

(** The theorem on a recording with two spikes, sampled at 1 kHz. *)
Lemma spike_times_increasing_witness :
  (0 < 1000)%Q /\
  StronglySorted Qlt (detect_action_potentials [0; -1; 0; -2; 0]%Q 1000 (-1 # 2)).
Proof.
  split; [reflexivity |].
  apply (@spike_times_increasing [0; -1; 0; -2; 0]%Q 1000 (-1 # 2)).
  reflexivity.
Defined.

Lemma Qabs_opp_eq (t : Q) : Qabs (- t) = Qabs t.
Proof. destruct t as [n d]. unfold Qabs, Qopp. simpl. rewrite Z.abs_opp. reflexivity. Qed.

(** C10: spike detection gives the same result for a threshold and for its
    negation; only the magnitude of the threshold is used. *)
Theorem detect_threshold_sign signal sampling_rate t :
  detect_action_potentials signal sampling_rate (- t)
  = detect_action_potentials signal sampling_rate t.
Proof.
  unfold detect_action_potentials, spike_indices.
  rewrite Qabs_opp_eq. reflexivity.
Qed.

End DetectionFacts.

(* ===================================================================== *)
(** * Interspike intervals *)
(* ===================================================================== *)

Module IntervalFacts.

Import Intervals ActionPotential.

Lemma diff_length a : length (diff a) = length a - 1.
Proof.
  induction a as [| t0 [| t1 rest] IH]; try reflexivity.
  change (diff (t0 :: t1 :: rest)) with ((t1 - t0)%Q :: diff (t1 :: rest)).
  simpl length in *. rewrite IH. lia.
Qed.

Lemma diff_nonneg a :
  Sorted Qle a -> Forall (fun v => (0 <= v)%Q) (diff a).
Proof.
  induction 1 as [| t0 a Hs IH Hhd]; [constructor |].
  destruct a as [| t1 rest]; [constructor |].
  change (diff (t0 :: t1 :: rest)) with ((t1 - t0)%Q :: diff (t1 :: rest)).
  constructor; [| exact IH].
  inversion Hhd; subst. lra.
Qed.

Lemma compute_isi_eq spike_times :
  compute_isi spike_times
  = Ok (Quantity (map (fun v => (v * 1000)%Q) (diff spike_times)) milliseconds).
Proof. reflexivity. Qed.

(** C5: for an ascending sequence of n >= 2 timestamps the interval
    computation returns n - 1 values, none of them negative. *)
Theorem compute_isi_ascending spike_times :
  Sorted Qle spike_times -> 2 <= length spike_times ->
  exists isi_values,
    compute_isi spike_times = Ok isi_values /\
    length (magnitude isi_values) = length spike_times - 1 /\
    Forall (fun v => (0 <= v)%Q) (magnitude isi_values).
Proof.
  intros Hs _. rewrite compute_isi_eq. eexists. split; [reflexivity |].
  simpl magnitude. split.
  - rewrite length_map. apply diff_length.
  - apply Forall_map. eapply Forall_impl; [| apply diff_nonneg, Hs].
    intros v Hv. simpl. apply Qmult_le_0_compat; [exact Hv | discriminate].
Qed.

(** The theorem on three spike times. *)
Lemma compute_isi_ascending_witness :
  Sorted Qle [1 # 1000; 3 # 1000; 3 # 1000]%Q /\
  2 <= length [1 # 1000; 3 # 1000; 3 # 1000]%Q /\
  exists isi_values,
    compute_isi [1 # 1000; 3 # 1000; 3 # 1000]%Q = Ok isi_values /\
    length (magnitude isi_values) = 3 - 1 /\
    Forall (fun v => (0 <= v)%Q) (magnitude isi_values).
Proof.
  assert (Hs : Sorted Qle [1 # 1000; 3 # 1000; 3 # 1000]%Q).
  { repeat constructor; vm_compute; discriminate. }
  assert (Hn : 2 <= length [1 # 1000; 3 # 1000; 3 # 1000]%Q) by (simpl; lia).
  split; [exact Hs | split; [exact Hn |]].
  exact (@compute_isi_ascending [1 # 1000; 3 # 1000; 3 # 1000]%Q Hs Hn).
Defined.

(** C6, as written: with fewer than two timestamps the computation would
    raise EmptyInputError.  On the empty sequence and on a single timestamp
    it returns. *)
Lemma compute_isi_short_returns :
  length (@nil Q) < 2 /\
  ~ raises (compute_isi []) "EmptyInputError" /\
  ~ raises (compute_isi [1 # 2]%Q) "EmptyInputError".
Proof.
  split; [simpl; lia |].
  split; intros (e & H & _); discriminate H.
Qed.

(** C6, as amended: with fewer than two timestamps the interval computation
    raises nothing and returns the empty sequence, in milliseconds. *)
Theorem compute_isi_short spike_times :
  length spike_times < 2 ->
  compute_isi spike_times = Ok (Quantity [] milliseconds).
Proof.
  intros H. rewrite compute_isi_eq.
  destruct spike_times as [| t0 [| t1 rest]]; try reflexivity.
  simpl in H. lia.
Qed.

(** The theorem on a single timestamp. *)
Lemma compute_isi_short_witness :
  length [1 # 2]%Q < 2 /\
  compute_isi [1 # 2]%Q = Ok (Quantity [] milliseconds).
Proof.
  split; [simpl; lia |].
  apply (@compute_isi_short [1 # 2]%Q). simpl; lia.
Defined.

End IntervalFacts.

(* ===================================================================== *)
(** * Band-pass filtering *)
(* ===================================================================== *)

Module FilterFacts.

Import Filtering.

Lemma Qle_bool_false_iff (x y : Q) : Qle_bool x y = false <-> (y < x)%Q.
Proof.
  rewrite <- Bool.not_true_iff_false, Qle_bool_iff. split.
  - apply Qnot_le_lt.
  - apply Qlt_not_le.
Qed.

Lemma sosfilt_from_length sos x : forall zi,
  length (sosfilt_from sos zi x) = length x.
Proof.
  induction x as [| x_n x IH]; intros zi; simpl; [reflexivity |].
  destruct (sections_step sos zi x_n) as [y zi']. simpl. rewrite IH. reflexivity.
Qed.

Lemma sosfilt_length sos x : length (sosfilt sos x) = length x.
Proof. apply sosfilt_from_length. Qed.

Lemma scaled_cutoffs fs fmin fmax :
  (0 < fs)%Q ->
  ((0 < 2 * fmin / fs)%Q <-> (0 < fmin)%Q) /\
  ((2 * fmin / fs < 2 * fmax / fs)%Q <-> (fmin < fmax)%Q) /\
  ((2 * fmax / fs < 1)%Q <-> (fmax < fs / 2)%Q).
Proof.
  intros Hfs.
  assert (Hinv : (0 < / fs)%Q) by (apply Qinv_lt_0_compat; exact Hfs).
  assert (Hne : ~ (fs == 0)%Q) by (intros H; rewrite H in Hfs; discriminate Hfs).
  assert (Hone : (fs * / fs == 1)%Q) by (apply Qmult_inv_r; exact Hne).
  change (fs / 2)%Q with (fs * (1 # 2))%Q.
  unfold Qdiv. set (v := (/ fs)%Q) in *.
  split; [| split].
  - split; intros H.
    + assert (H' : (0 * v < 2 * fmin * v)%Q) by (rewrite Qmult_0_l; exact H).
      apply (proj1 (Qmult_lt_r _ _ _ Hinv)) in H'. lra.
    + assert (H' : (0 * v < 2 * fmin * v)%Q)
        by (apply (proj2 (Qmult_lt_r _ _ _ Hinv)); lra).
      rewrite Qmult_0_l in H'. exact H'.
  - rewrite (Qmult_lt_r (2 * fmin) (2 * fmax) v Hinv). split; intros H; lra.
  - split; intros H.
    + assert (H' : (2 * fmax * v < fs * v)%Q) by (rewrite Hone; exact H).
      apply (proj1 (Qmult_lt_r _ _ _ Hinv)) in H'. lra.
    + assert (H' : (2 * fmax * v < fs * v)%Q)
        by (apply (proj2 (Qmult_lt_r _ _ _ Hinv)); lra).
      rewrite Hone in H'. exact H'.
Qed.

Lemma butter_bandpass_valid design N fs fmin fmax :
  valid_band fs fmin fmax ->
  butter_bandpass design N fmin fmax fs
  = Ok (design N (2 * fmin / fs)%Q (2 * fmax / fs)%Q).
Proof.
  intros (Hmin & Hlt & Hmax).
  assert (Hfs : (0 < fs)%Q).
  { change (fs / 2)%Q with (fs * (1 # 2))%Q in Hmax. lra. }
  destruct (scaled_cutoffs fmin fmax Hfs) as (H0 & H1 & H2).
  assert (H0' : (0 < 2 * fmax / fs)%Q).
  { apply (scaled_cutoffs fmax fmax Hfs). lra. }
  apply H0 in Hmin. apply H1 in Hlt. apply H2 in Hmax.
  unfold butter_bandpass. cbv zeta.
  rewrite (proj2 (Qle_bool_false_iff _ _) Hmin).
  rewrite (proj2 (Qle_bool_false_iff _ _) H0').
  rewrite (proj2 (Qlt_bool_iff _ _) Hlt).
  rewrite (proj2 (Qle_bool_false_iff 1 (2 * fmin / fs))) by lra.
  rewrite (proj2 (Qle_bool_false_iff 1 (2 * fmax / fs))) by lra.
  reflexivity.
Qed.

Lemma butter_bandpass_invalid design N fs fmin fmax :
  (0 <= fs)%Q -> ~ valid_band fs fmin fmax ->
  raises (butter_bandpass design N fmin fmax fs) "ValueError".
Proof.
  intros Hfs Hbad. unfold butter_bandpass. cbv zeta.
  destruct (Qle_bool (2 * fmin / fs) 0) eqn:E0;
    [eexists; split; reflexivity |].
  destruct (Qle_bool (2 * fmax / fs) 0) eqn:E1;
    [eexists; split; reflexivity |].
  destruct (Qlt_bool (2 * fmin / fs) (2 * fmax / fs)) eqn:E2;
    [| eexists; split; reflexivity].
  destruct (Qle_bool 1 (2 * fmin / fs)) eqn:E3;
    [eexists; split; reflexivity |].
  destruct (Qle_bool 1 (2 * fmax / fs)) eqn:E4;
    [eexists; split; reflexivity |].
  exfalso. apply Hbad.
  apply Qle_bool_false_iff in E0, E1, E3, E4. apply Qlt_bool_iff in E2.
  assert (Hpos : (0 < fs)%Q).
  { destruct (Qlt_le_dec 0 fs) as [? | Hle]; [assumption | exfalso].
    assert (Hz : (fs == 0)%Q) by lra.
    unfold Qdiv in E0. rewrite Hz in E0.
    change (/ 0)%Q with 0%Q in E0. lra. }
  destruct (scaled_cutoffs fmin fmax Hpos) as (H0 & H1 & H2).
  split; [apply H0; exact E0 | split; [apply H1; exact E2 | apply H2; exact E4]].
Qed.

Lemma pharma_preprocess_eq env signal fs flag fmin fmax tr :
  Pharmacological.preprocess_signal env signal fs flag fmin fmax tr =
  match detrend_stage env flag signal with
  | Raise e => (Raise e, tr)
  | Ok d =>
      match butter_bandpass (butter_design env) 4 fmin fmax fs with
      | Raise e => (Raise e, tr)
      | Ok sos =>
          (Ok (sosfilt sos d),
           tr ++ [Effects.LogInfo
                    "Signal preprocessed with bandpass filtering and detrending."
                    []])
      end
  end.
Proof.
  unfold Pharmacological.preprocess_signal, detrend_stage, Effects.bind, Effects.lift.
  destruct (if flag then detrend env signal else Ok signal); [| reflexivity].
  destruct (butter_bandpass (butter_design env) 4 fmin fmax fs); reflexivity.
Qed.

(** C1: for cutoffs with 0 < freq_min < freq_max < sampling_rate / 2 the
    band-pass filter returns, and its output is as long as its input: in
    [bandpass_filter], and in the filter stage of the pharmacological
    [preprocess_signal], which fails only when detrending does. *)
Theorem bandpass_preserves_length env signal sampling_rate freq_min freq_max :
  (0 < freq_min)%Q -> (freq_min < freq_max)%Q ->
  (freq_max < sampling_rate / 2)%Q ->
  (exists out,
     ActionPotential.bandpass_filter env signal sampling_rate freq_min freq_max
       = Ok out /\
     length out = length signal) /\
  (forall detrend_signal tr,
     match detrend_stage env detrend_signal signal with
     | Ok detrended =>
         exists out tr',
           Pharmacological.preprocess_signal env signal sampling_rate
             detrend_signal freq_min freq_max tr = (Ok out, tr') /\
           length out = length detrended
     | Raise e =>
         Pharmacological.preprocess_signal env signal sampling_rate
           detrend_signal freq_min freq_max tr = (Raise e, tr)
     end) /\
  (forall tr, exists out tr',
     Pharmacological.preprocess_signal env signal sampling_rate
       false freq_min freq_max tr = (Ok out, tr') /\
     length out = length signal).
Proof.
  intros Hmin Hlt Hmax.
  assert (Hv : valid_band sampling_rate freq_min freq_max)
    by (repeat split; assumption).
  pose proof (butter_bandpass_valid (butter_design env) 4 Hv) as Hb.
  split; [| split].
  - unfold ActionPotential.bandpass_filter. rewrite Hb. simpl.
    eexists. split; [reflexivity | apply sosfilt_length].
  - intros flag tr. rewrite pharma_preprocess_eq.
    destruct (detrend_stage env flag signal) as [d | e]; [| reflexivity].
    rewrite Hb. do 2 eexists. split; [reflexivity | apply sosfilt_length].
  - intros tr. rewrite pharma_preprocess_eq. simpl detrend_stage. cbv iota.
    rewrite Hb. do 2 eexists. split; [reflexivity | apply sosfilt_length].
Qed.

(** The theorem for a 1 Hz to 100 Hz band at 1 kHz. *)
Lemma bandpass_preserves_length_witness :
  (0 < 1)%Q /\ (1 < 100)%Q /\ (100 < 1000 / 2)%Q /\
  exists out,
    ActionPotential.bandpass_filter bare_env [0; 1; 0; -1]%Q 1000 1 100 = Ok out /\
    length out = 4.
Proof.
  split; [reflexivity | split; [reflexivity | split; [reflexivity |]]].
  apply (@bandpass_preserves_length bare_env [0; 1; 0; -1]%Q 1000 1 100);
    reflexivity.
Defined.

(** C2, as written: cutoffs that violate the constraint would make the
    filter raise InvalidParameterError.  With freq_min = 100 above
    freq_max = 1 the exception is the ValueError of the filter design. *)
Lemma bandpass_filter_swapped_cutoffs :
  ~ valid_band 1000 100 1 /\
  ActionPotential.bandpass_filter bare_env [0; 1; 0; -1]%Q 1000 100 1
    = Raise (ValueError "Wn[0] must be less than Wn[1]") /\
  ~ raises (ActionPotential.bandpass_filter bare_env [0; 1; 0; -1]%Q 1000 100 1)
      "InvalidParameterError".
Proof.
  split; [| split].
  - intros (_ & H & _). discriminate H.
  - reflexivity.
  - intros (e & H & Hc). vm_compute in H. inversion H; subst e.
    discriminate Hc.
Qed.

(** C2, as amended: for a non-negative sampling rate, cutoffs that violate
    0 < freq_min < freq_max < sampling_rate / 2 make the band-pass filter
    fail with the ValueError that the filter design raises; no result is
    returned.  The same holds for the filter stage of the pharmacological
    [preprocess_signal]. *)
Theorem bandpass_invalid_cutoffs env signal sampling_rate freq_min freq_max :
  (0 <= sampling_rate)%Q ->
  ~ ((0 < freq_min)%Q /\ (freq_min < freq_max)%Q /\
     (freq_max < sampling_rate / 2)%Q) ->
  raises
    (ActionPotential.bandpass_filter env signal sampling_rate freq_min freq_max)
    "ValueError" /\
  (forall tr,
     raises
       (fst (Pharmacological.preprocess_signal env signal sampling_rate
               false freq_min freq_max tr))
       "ValueError").
Proof.
  intros Hfs Hbad.
  destruct (@butter_bandpass_invalid (butter_design env) 4 _ _ _ Hfs Hbad)
    as (e & He & Hc).
  split.
  - exists e. split; [| exact Hc].
    unfold ActionPotential.bandpass_filter. rewrite He. reflexivity.
  - intros tr. exists e. split; [| exact Hc].
    rewrite pharma_preprocess_eq. simpl detrend_stage. cbv iota.
    rewrite He. reflexivity.
Qed.

(** The theorem for swapped cutoffs at 1 kHz. *)
Lemma bandpass_invalid_cutoffs_witness :
  (0 <= 1000)%Q /\
  ~ ((0 < 100)%Q /\ (100 < 1)%Q /\ (1 < 1000 / 2)%Q) /\
  raises
    (ActionPotential.bandpass_filter bare_env [0; 1; 0; -1]%Q 1000 100 1)
    "ValueError".
Proof.
  assert (H0 : (0 <= 1000)%Q) by (vm_compute; discriminate).
  assert (H1 : ~ ((0 < 100)%Q /\ (100 < 1)%Q /\ (1 < 1000 / 2)%Q)).
  { intros (_ & H & _). vm_compute in H. discriminate H. }
  split; [exact H0 | split; [exact H1 |]].
  apply (@bandpass_invalid_cutoffs bare_env [0; 1; 0; -1]%Q 1000 100 1 H0 H1).
Defined.

End FilterFacts.

(* ===================================================================== *)
(** * Data loading *)
(* ===================================================================== *)

Module LoadingFacts.

Import Effects.
Local Open Scope string_scope.

(** C8, as written: loading a file that does not exist would raise
    DataLoadingError.  The loader of the action-potential script has no
    handler, and the exception of the format library reaches the caller. *)
Lemma load_data_missing_abf_escapes :
  pyabf_ABF bare_env "missing.abf"
    = Raise (ValueError "ABF file does not exist: missing.abf") /\
  ActionPotential.load_data bare_env "missing.abf" "abf"
    = Raise (ValueError "ABF file does not exist: missing.abf") /\
  ~ raises (ActionPotential.load_data bare_env "missing.abf" "abf")
      "DataLoadingError".
Proof.
  split; [reflexivity | split; [reflexivity |]].
  intros (e & H & Hc). vm_compute in H. inversion H; subst e. discriminate Hc.
Qed.

Lemma action_potential_load_data_cases env file_path file_type :
  ActionPotential.load_data env file_path file_type =
  if String.eqb "abf" file_type then ActionPotential.load_abf_data env file_path
  else if String.eqb "neo" file_type then ActionPotential.load_neo_data env file_path
  else Raise (ValueError ("Unsupported file type: " ++ file_type)).
Proof.
  unfold ActionPotential.load_data. cbn -[String.eqb].
  destruct (String.eqb "abf" file_type); [reflexivity |].
  destruct (String.eqb "neo" file_type); reflexivity.
Qed.

(** C8, as amended: when the format libraries fail to open a path, the
    loader of the pharmacological script fails with DataLoadingError for
    every file type, chained from the library's exception where there is
    one; the loader of the action-potential script passes the library's
    exception on unchanged, and raises ValueError for a file type it does
    not know. *)
Theorem load_data_missing_file env file_path file_type tr e_abf e_neo :
  pyabf_ABF env file_path = Raise e_abf ->
  isinstance e_abf "Exception" = true ->
  NeoHdf5IO env file_path = Raise e_neo ->
  isinstance e_neo "Exception" = true ->
  raises (fst (Pharmacological.load_data env file_path file_type tr))
    "DataLoadingError" /\
  (file_type = "abf" ->
   fst (Pharmacological.load_data env file_path file_type tr)
     = Raise (Pharmacological.DataLoadingError
                ("Could not load ABF data from " ++ file_path ++ ".")
                (Some e_abf)) /\
   ActionPotential.load_data env file_path file_type = Raise e_abf) /\
  (file_type = "neo" ->
   fst (Pharmacological.load_data env file_path file_type tr)
     = Raise (Pharmacological.DataLoadingError
                ("Could not load Neo data from " ++ file_path ++ ".")
                (Some e_neo)) /\
   ActionPotential.load_data env file_path file_type = Raise e_neo) /\
  (file_type <> "abf" -> file_type <> "neo" ->
   raises (ActionPotential.load_data env file_path file_type) "ValueError").
Proof.
  intros Habf Iabf Hneo Ineo.
  assert (Pabf : file_type = "abf" ->
    fst (Pharmacological.load_data env file_path file_type tr)
     = Raise (Pharmacological.DataLoadingError
                ("Could not load ABF data from " ++ file_path ++ ".")
                (Some e_abf))).
  { intros ->. unfold Pharmacological.load_data, bind, try_except, lift.
    simpl String.eqb. cbv iota. rewrite Habf, Iabf. reflexivity. }
  assert (Pneo : file_type = "neo" ->
    fst (Pharmacological.load_data env file_path file_type tr)
     = Raise (Pharmacological.DataLoadingError
                ("Could not load Neo data from " ++ file_path ++ ".")
                (Some e_neo))).
  { intros ->. unfold Pharmacological.load_data, bind, try_except, lift.
    simpl String.eqb. cbv iota. rewrite Hneo, Ineo. reflexivity. }
  split; [| split; [| split]].
  - destruct (String.eqb_spec file_type "abf") as [E | E].
    { eexists. split; [apply Pabf, E | reflexivity]. }
    destruct (String.eqb_spec file_type "neo") as [E' | E'].
    { eexists. split; [apply Pneo, E' | reflexivity]. }
    unfold Pharmacological.load_data, bind.
    apply String.eqb_neq in E, E'. rewrite E, E'.
    eexists. split; reflexivity.
  - intros E. split; [apply Pabf, E |]. subst file_type.
    rewrite action_potential_load_data_cases. simpl.
    unfold ActionPotential.load_abf_data. rewrite Habf. reflexivity.
  - intros E. split; [apply Pneo, E |]. subst file_type.
    rewrite action_potential_load_data_cases. simpl.
    unfold ActionPotential.load_neo_data. rewrite Hneo. reflexivity.
  - intros E E'. rewrite action_potential_load_data_cases.
    assert (Ea : String.eqb "abf" file_type = false)
      by (apply String.eqb_neq; congruence).
    assert (En : String.eqb "neo" file_type = false)
      by (apply String.eqb_neq; congruence).
    rewrite Ea, En. eexists. split; reflexivity.
Qed.

(** The theorem where no file exists, for the ABF loader. *)
Lemma load_data_missing_file_witness :
  isinstance (ValueError "ABF file does not exist: missing.abf") "Exception"
    = true /\
  isinstance (FileNotFoundError "No such file: missing.abf") "Exception"
    = true /\
  raises (fst (Pharmacological.load_data bare_env "missing.abf" "abf" []))
    "DataLoadingError".
Proof.
  split; [reflexivity | split; [reflexivity |]].
  apply (@load_data_missing_file bare_env "missing.abf" "abf" []
           (ValueError "ABF file does not exist: missing.abf")
           (FileNotFoundError "No such file: missing.abf"));
    reflexivity.
Defined.

End LoadingFacts.

(* ===================================================================== *)
(** * Curve fitting *)
(* ===================================================================== *)

Module FittingFacts.

Import Effects.
Local Open Scope string_scope.

Lemma fit_calls_app tr tr' : fit_calls (tr ++ tr') = fit_calls tr + fit_calls tr'.
Proof. unfold fit_calls. rewrite filter_app, length_app. reflexivity. Qed.

(** C7, as written: when the optimizer does not converge the fit would
    raise CurveFitError.  [fit_dose_response] raises AnalysisError and
    [analyze_synaptic_io] lets the RuntimeError of the optimizer through. *)
Lemma curve_fit_failure_classes :
  curve_fit bare_env (dose_response_problem [1; 10; 100]%Q [5; 50; 90]%Q)
    = Raise (RuntimeError
               "Optimal parameters not found: The maximum number of function evaluations is exceeded.") /\
  raises (fst (Pharmacological.fit_dose_response bare_env
                 [1; 10; 100]%Q [5; 50; 90]%Q []))
    "AnalysisError" /\
  ~ raises (fst (Pharmacological.fit_dose_response bare_env
                   [1; 10; 100]%Q [5; 50; 90]%Q []))
      "CurveFitError" /\
  raises (fst (SynapticIO.analyze_synaptic_io bare_env io_table []))
    "RuntimeError" /\
  ~ raises (fst (SynapticIO.analyze_synaptic_io bare_env io_table []))
      "CurveFitError".
Proof.
  split; [reflexivity |].
  split; [eexists; split; reflexivity |].
  split; [intros (e & H & Hc); vm_compute in H; inversion H; subst e;
          discriminate Hc |].
  split; [eexists; split; reflexivity |].
  intros (e & H & Hc). vm_compute in H. inversion H; subst e. discriminate Hc.
Qed.

(** C7, as amended: when the optimizer fails to converge (it raises a
    RuntimeError) on a dose-response dataset, [fit_dose_response] fails with
    AnalysisError chained from that error; when it fails to converge on an
    input-output table, [analyze_synaptic_io] fails with the RuntimeError
    itself.  Each holds on its own, and in both the optimizer has run
    exactly once: there is no retry. *)
Theorem curve_fit_failure env :
  (forall doses responses tr e,
     isinstance e "RuntimeError" = true ->
     curve_fit env (dose_response_problem doses responses) = Raise e ->
     exists tr',
       Pharmacological.fit_dose_response env doses responses tr
         = (Raise (Pharmacological.AnalysisError
                     "Curve fitting failed. Check your dose-response data."
                     (Some e)),
            tr') /\
       fit_calls tr' = fit_calls tr + 1) /\
  (forall data input_data output_data tr e,
     isinstance e "RuntimeError" = true ->
     SynapticIO.column data "Input" = Ok input_data ->
     SynapticIO.column data "Output" = Ok output_data ->
     curve_fit env (synaptic_io_problem input_data output_data) = Raise e ->
     exists tr',
       SynapticIO.analyze_synaptic_io env data tr = (Raise e, tr') /\
       fit_calls tr' = fit_calls tr + 1).
Proof.
  split.
  - intros doses responses tr e He Hdose.
    unfold Pharmacological.fit_dose_response, bind, try_except, call_curve_fit.
    fold (dose_response_problem doses responses).
    rewrite Hdose, He. unfold emit, raise. eexists. split; [reflexivity |].
    rewrite !fit_calls_app. unfold fit_calls at 2 3. simpl. lia.
  - intros data input_data output_data tr e _ Hin Hout Hio.
    unfold SynapticIO.analyze_synaptic_io, bind, lift, call_curve_fit.
    rewrite Hin, Hout.
    fold (synaptic_io_problem input_data output_data).
    rewrite Hio. eexists. split; [reflexivity |].
    rewrite fit_calls_app. reflexivity.
Qed.

(** The theorem where the optimizer never converges: each script on its
    own data. *)
Lemma curve_fit_failure_witness :
  isinstance
    (RuntimeError
       "Optimal parameters not found: The maximum number of function evaluations is exceeded.")
    "RuntimeError" = true /\
  SynapticIO.column io_table "Input" = Ok [1; 2; 3; 4]%Q /\
  SynapticIO.column io_table "Output" = Ok [0; 1; 1; 0]%Q /\
  (exists tr',
     Pharmacological.fit_dose_response bare_env [1; 10; 100]%Q [5; 50; 90]%Q []
       = (Raise (Pharmacological.AnalysisError
                   "Curve fitting failed. Check your dose-response data."
                   (Some (RuntimeError
       "Optimal parameters not found: The maximum number of function evaluations is exceeded."))),
          tr') /\
     fit_calls tr' = fit_calls [] + 1) /\
  (exists tr',
     SynapticIO.analyze_synaptic_io bare_env io_table []
       = (Raise (RuntimeError
       "Optimal parameters not found: The maximum number of function evaluations is exceeded."),
          tr') /\
     fit_calls tr' = fit_calls [] + 1).
Proof.
  split; [reflexivity | split; [reflexivity | split; [reflexivity |]]].
  split.
  - apply (proj1 (curve_fit_failure bare_env) [1; 10; 100]%Q [5; 50; 90]%Q []);
      reflexivity.
  - apply (proj2 (curve_fit_failure bare_env) io_table
             [1; 2; 3; 4]%Q [0; 1; 1; 0]%Q []); reflexivity.
Defined.

End FittingFacts.

(* ===================================================================== *)
(** * Further properties of spike detection *)
(* ===================================================================== *)

Module DetectionBounds.

Import PeakFinding PeakFacts ActionPotential DetectionFacts.

Lemma at_negate signal i : at_ (negate signal) i = (- at_ signal i)%Q.
Proof.
  unfold at_, negate. change 0%Q with (- 0)%Q at 1. apply map_nth.
Qed.

Lemma negate_length signal : length (negate signal) = length signal.
Proof. apply length_map. Qed.

(** The peak of a flat maximum lies between its edges and carries the
    value of the flat part. *)
Lemma is_peak_inside x i :
  is_peak x i ->
  exists l r, plateau x l r /\ l <= i <= r /\ (at_ x i == at_ x l)%Q.
Proof.
  intros (l & r & Hp & ->). exists l, r.
  pose proof Hp as (_ & Hlr & _ & _ & Hflat & _).
  pose proof (midpoint_bounds Hlr) as Hm.
  split; [exact Hp | split; [exact Hm | apply Hflat; exact Hm]].
Qed.

Lemma is_peak_neighbours x i :
  is_peak x i ->
  1 <= i /\ i + 2 <= length x /\
  (at_ x (i - 1) <= at_ x i)%Q /\ (at_ x (i + 1) <= at_ x i)%Q.
Proof.
  intros Hi. destruct (is_peak_inside Hi) as (l & r & Hp & Hm & Hv).
  destruct Hp as (Hl & Hlr & Hr & Hrise & Hflat & Hdrop).
  split; [lia | split; [lia | split]]; rewrite Hv.
  - destruct (Nat.eq_dec i l) as [-> | Hne].
    + apply Qlt_le_weak. exact Hrise.
    + rewrite (Hflat (i - 1)) by lia. apply Qle_refl.
  - destruct (Nat.eq_dec i r) as [-> | Hne].
    + apply Qlt_le_weak. exact Hdrop.
    + rewrite (Hflat (i + 1)) by lia. apply Qle_refl.
Qed.

(** X1: a spike is never reported at the first or at the last sample of
    the recording. *)
Theorem spikes_are_interior signal threshold :
  Forall (fun i => 1 <= i /\ i + 2 <= length signal)
         (spike_indices signal threshold).
Proof.
  apply Forall_forall. intros i Hi.
  apply spike_indices_iff in Hi. destruct Hi as (Hp & _).
  destruct (is_peak_neighbours Hp) as (H1 & H2 & _).
  rewrite negate_length in H2. split; assumption.
Qed.

(** X2: every reported spike is a local minimum of the recording at or
    below minus the magnitude of the threshold: the samples next to it are
    not smaller. *)
Theorem spikes_are_local_minima signal threshold :
  Forall (fun i =>
            (at_ signal i <= - Qabs threshold)%Q /\
            (at_ signal i <= at_ signal (i - 1))%Q /\
            (at_ signal i <= at_ signal (i + 1))%Q)
         (spike_indices signal threshold).
Proof.
  apply Forall_forall. intros i Hi.
  apply spike_indices_iff in Hi. destruct Hi as (Hp & Hh).
  destruct (is_peak_neighbours Hp) as (_ & _ & Hprev & Hnext).
  rewrite !at_negate in *. repeat split; lra.
Qed.

Lemma maxima_from_count x i_max :
  forall n i, i_max - i <= n ->
    2 * length (maxima_from x i_max i) <= i_max + 1 - i.
Proof.
  induction n as [| n IH]; intros i Hn; rewrite maxima_from_eq.
  - replace (i <? i_max) with false by (symmetry; apply Nat.ltb_ge; lia).
    simpl. lia.
  - destruct (Nat.ltb_spec i i_max) as [Hlt | Hge]; [| simpl; lia].
    assert (Hnext : 2 * length (maxima_from x i_max (i + 1)) <= i_max + 1 - i).
    { specialize (IH (i + 1) ltac:(lia)). lia. }
    destruct (Qlt_bool (at_ x (i - 1)) (at_ x i)); [| exact Hnext].
    cbv zeta.
    destruct (@look_ahead_spec x i i_max (i + 1)) as (Hb & _); [lia |].
    set (a := look_ahead x i i_max (i + 1)) in *.
    destruct (Qlt_bool (at_ x a) (at_ x i)); [| exact Hnext].
    specialize (IH (a + 1) ltac:(lia)). simpl length. lia.
Qed.

Lemma maxima_from_spaced x :
  forall n i, (length x - 1) - i <= n -> 1 <= i ->
    StronglySorted (fun p q => p + 2 <= q)
      (map midpoint (maxima_from x (length x - 1) i)).
Proof.
  set (i_max := length x - 1).
  induction n as [| n IH]; intros i Hn Hi; rewrite maxima_from_eq.
  - replace (i <? i_max) with false by (symmetry; apply Nat.ltb_ge; lia).
    constructor.
  - destruct (Nat.ltb_spec i i_max) as [Hlt | Hge]; [| constructor].
    assert (Hnext : StronglySorted (fun p q => p + 2 <= q)
                      (map midpoint (maxima_from x i_max (i + 1))))
      by (apply IH; lia).
    destruct (Qlt_bool (at_ x (i - 1)) (at_ x i)); [| exact Hnext].
    cbv zeta.
    pose proof (look_ahead_ge x i i_max (i + 1)) as Hge.
    set (a := look_ahead x i i_max (i + 1)) in *.
    destruct (Qlt_bool (at_ x a) (at_ x i)); [| exact Hnext].
    cbn [map midpoint]. constructor; [apply IH; lia |].
    apply Forall_map.
    eapply Forall_impl;
      [| apply (@maxima_from_sound x (i_max - (a + 1)) (a + 1)); lia].
    intros m (Hl & (_ & Hlr & _) & Hm). rewrite Hm.
    pose proof (midpoint_bounds Hlr).
    pose proof (@midpoint_bounds i (a - 1) ltac:(lia)). lia.
Qed.

Lemma filter_length_le {A} (f : A -> bool) l : length (filter f l) <= length l.
Proof.
  induction l as [| a l IH]; simpl; [lia |].
  destruct (f a); simpl; lia.
Qed.

(** X3: on a recording of n samples the peak search records at most n / 2
    maxima of the inverted signal, so the arrays of n / 2 entries it
    allocates are never overrun; detection reports at most (n - 1) / 2
    spikes. *)
Theorem spike_count_bound signal sampling_rate threshold :
  length (local_maxima_1d (negate signal)) <= length signal / 2 /\
  2 * length (detect_action_potentials signal sampling_rate threshold)
  <= length signal - 1.
Proof.
  pose proof (@maxima_from_count (negate signal) (length (negate signal) - 1)
                (length (negate signal) - 1) 1 ltac:(lia)) as Hc.
  fold (local_maxima_1d (negate signal)) in Hc.
  rewrite negate_length in Hc. split.
  - apply Nat.div_le_lower_bound; lia.
  - unfold detect_action_potentials, spike_indices.
    rewrite length_map, find_peaks_height.
    pose proof (filter_length_le
                  (fun p => Qle_bool (Qabs threshold) (at_ (negate signal) p))
                  (map midpoint (local_maxima_1d (negate signal)))) as Hf.
    rewrite length_map in Hf. lia.
Qed.

Lemma spike_spacing_strong signal threshold :
  StronglySorted (fun p q => p + 2 <= q) (spike_indices signal threshold).
Proof.
  unfold spike_indices. rewrite find_peaks_height.
  apply StronglySorted_filter.
  apply (@maxima_from_spaced (negate signal) (length (negate signal) - 1)); lia.
Qed.

(** X4: two spikes reported one after the other are at least two samples
    apart, and nothing more is enforced (there is no refractory period):
    for every threshold the recording [two_spikes] yields spikes at the
    samples 1 and 3. *)
Theorem spike_spacing signal threshold :
  Sorted (fun p q => p + 2 <= q) (spike_indices signal threshold) /\
  In 1 (spike_indices (two_spikes threshold) threshold) /\
  In 3 (spike_indices (two_spikes threshold) threshold).
Proof.
  split; [apply StronglySorted_Sorted, spike_spacing_strong |].
  pose proof (Qabs_nonneg threshold) as Ha.
  assert (Hpeak : forall i, i = 1 \/ i = 3 ->
            In i (spike_indices (two_spikes threshold) threshold)).
  { intros i Hi. apply spike_indices_iff. split.
    - exists i, i. split.
      + unfold plateau. rewrite negate_length.
        split; [lia | split; [lia | split; [simpl; lia | split; [| split]]]].
        * rewrite !at_negate.
          destruct Hi as [-> | ->]; unfold two_spikes, at_; simpl; lra.
        * intros k Hk. replace k with i by lia. reflexivity.
        * rewrite !at_negate.
          destruct Hi as [-> | ->]; unfold two_spikes, at_; simpl; lra.
      + destruct Hi as [-> | ->]; reflexivity.
    - rewrite at_negate.
      destruct Hi as [-> | ->]; unfold two_spikes, at_; simpl; lra. }
  split; apply Hpeak; [left | right]; reflexivity.
Qed.

Lemma no_member_nil {A} (l : list A) : (forall a, ~ In a l) -> l = [].
Proof.
  destruct l as [| a l]; [reflexivity |].
  intros H. exfalso. apply (H a). left. reflexivity.
Qed.

(** X5: a recording that never falls, or never rises, from one sample to
    the next holds no spike, whatever the threshold. *)
Theorem monotone_signal_no_spikes signal sampling_rate threshold :
  (forall i, i + 1 < length signal ->
     (at_ signal i <= at_ signal (i + 1))%Q) \/
  (forall i, i + 1 < length signal ->
     (at_ signal (i + 1) <= at_ signal i)%Q) ->
  detect_action_potentials signal sampling_rate threshold = [].
Proof.
  intros Hmono. unfold detect_action_potentials.
  rewrite (@no_member_nil _ (spike_indices signal threshold)); [reflexivity |].
  intros i Hi. apply spike_indices_iff in Hi. destruct Hi as ((l & r & Hp & _) & _).
  destruct Hp as (Hl & Hlr & Hr & Hrise & Hflat & Hdrop).
  rewrite negate_length in Hr.
  destruct Hmono as [Hup | Hdown].
  - specialize (Hup (l - 1) ltac:(lia)).
    replace (l - 1 + 1) with l in Hup by lia.
    rewrite !at_negate in Hrise. lra.
  - specialize (Hdown r ltac:(lia)).
    specialize (Hflat r ltac:(lia)).
    rewrite !at_negate in Hdrop, Hflat. lra.
Qed.

(** The theorem on a rising ramp. *)
Lemma monotone_signal_no_spikes_witness :
  ((forall i, i + 1 < length [-3; -2; -2; 0]%Q ->
      (at_ [-3; -2; -2; 0]%Q i <= at_ [-3; -2; -2; 0]%Q (i + 1))%Q) \/
   (forall i, i + 1 < length [-3; -2; -2; 0]%Q ->
      (at_ [-3; -2; -2; 0]%Q (i + 1) <= at_ [-3; -2; -2; 0]%Q i)%Q)) /\
  detect_action_potentials [-3; -2; -2; 0]%Q 1000 1 = [].
Proof.
  assert (H : (forall i, i + 1 < length [-3; -2; -2; 0]%Q ->
      (at_ [-3; -2; -2; 0]%Q i <= at_ [-3; -2; -2; 0]%Q (i + 1))%Q) \/
   (forall i, i + 1 < length [-3; -2; -2; 0]%Q ->
      (at_ [-3; -2; -2; 0]%Q (i + 1) <= at_ [-3; -2; -2; 0]%Q i)%Q)).
  { left. intros i Hi. simpl in Hi.
    assert (Hc : i = 0 \/ i = 1 \/ i = 2) by lia.
    destruct Hc as [-> | [-> | ->]]; vm_compute; discriminate. }
  split; [exact H |].
  exact (@monotone_signal_no_spikes [-3; -2; -2; 0]%Q 1000 1 H).
Defined.

(** X6: a threshold of larger magnitude reports a part of the spikes that
    a threshold of smaller magnitude reports. *)
Theorem higher_threshold_fewer_spikes signal sampling_rate t1 t2 :
  (Qabs t1 <= Qabs t2)%Q ->
  incl (detect_action_potentials signal sampling_rate t2)
       (detect_action_potentials signal sampling_rate t1).
Proof.
  intros Ht q Hq. unfold detect_action_potentials in *.
  apply in_map_iff in Hq. destruct Hq as (i & <- & Hi).
  apply (in_map (fun j => (of_index j / sampling_rate)%Q)).
  apply spike_indices_iff in Hi. apply spike_indices_iff.
  destruct Hi as (Hp & Hh). split; [exact Hp |].
  apply Qle_trans with (Qabs t2); assumption.
Qed.

(** The theorem for thresholds -1 and -2 on a recording with two spikes. *)
Lemma higher_threshold_fewer_spikes_witness :
  (Qabs (-1) <= Qabs (-2))%Q /\
  incl (detect_action_potentials [0; -1; 0; -2; 0]%Q 1000 (-2))
       (detect_action_potentials [0; -1; 0; -2; 0]%Q 1000 (-1)).
Proof.
  assert (H : (Qabs (-1) <= Qabs (-2))%Q) by (vm_compute; discriminate).
  split; [exact H |].
  exact (@higher_threshold_fewer_spikes [0; -1; 0; -2; 0]%Q 1000 (-1) (-2) H).
Defined.

End DetectionBounds.

(* ===================================================================== *)
(** * Further properties of the interspike intervals *)
(* ===================================================================== *)

Module IntervalSums.

Import Intervals ActionPotential PeakFacts DetectionFacts IntervalFacts.

Lemma Qsum_cons v l : Qsum (v :: l) = (v + Qsum l)%Q.
Proof. reflexivity. Qed.

Lemma Qsum_scaled c l :
  (Qsum (map (fun v => v * c) l) == Qsum l * c)%Q.
Proof.
  induction l as [| v l IH].
  - unfold Qsum. simpl. ring.
  - cbn [map]. rewrite !Qsum_cons, IH. ring.
Qed.

Lemma Qsum_diff t0 ts :
  (Qsum (diff (t0 :: ts)) == last (t0 :: ts) 0 - t0)%Q.
Proof.
  revert t0. induction ts as [| t1 ts IH]; intros t0.
  - unfold Qsum. simpl. ring.
  - change (diff (t0 :: t1 :: ts)) with ((t1 - t0)%Q :: diff (t1 :: ts)).
    change (last (t0 :: t1 :: ts) 0%Q) with (last (t1 :: ts) 0%Q).
    rewrite Qsum_cons, IH. ring.
Qed.

(** X7: the intervals add up to the time from the first spike to the last
    one, in milliseconds. *)
Theorem isi_sum_telescopes spike_times :
  exists isi_values,
    compute_isi spike_times = Ok isi_values /\
    (Qsum (magnitude isi_values)
     == (last spike_times 0 - hd 0 spike_times) * 1000)%Q.
Proof.
  rewrite compute_isi_eq. eexists. split; [reflexivity |].
  simpl magnitude. rewrite Qsum_scaled.
  destruct spike_times as [| t0 ts].
  - unfold Qsum. simpl. ring.
  - rewrite Qsum_diff. simpl hd. reflexivity.
Qed.

Lemma diff_shift c a :
  Forall2 Qeq (diff (map (Qplus c) a)) (diff a).
Proof.
  induction a as [| t0 [| t1 rest] IH].
  - constructor.
  - constructor.
  - change (diff (map (Qplus c) (t0 :: t1 :: rest)))
      with ((c + t1 - (c + t0))%Q :: diff (map (Qplus c) (t1 :: rest))).
    change (diff (t0 :: t1 :: rest)) with ((t1 - t0)%Q :: diff (t1 :: rest)).
    apply Forall2_cons; [ring | exact IH].
Qed.

(** X8: moving every spike by the same amount of time leaves the intervals
    as they are. *)
Theorem isi_shift_invariant spike_times c :
  exists shifted original,
    compute_isi (map (Qplus c) spike_times) = Ok shifted /\
    compute_isi spike_times = Ok original /\
    Forall2 Qeq (magnitude shifted) (magnitude original).
Proof.
  rewrite !compute_isi_eq. do 2 eexists. split; [reflexivity |].
  split; [reflexivity |]. simpl magnitude.
  pose proof (diff_shift c spike_times) as H.
  induction H as [| u v us vs Huv _ IH]; simpl; constructor.
  - rewrite Huv. reflexivity.
  - exact IH.
Qed.

Lemma of_index_gap p q : p + 2 <= q -> (of_index p + 2 <= of_index q)%Q.
Proof.
  intros H. unfold of_index.
  change 2%Q with (inject_Z 2). rewrite <- inject_Z_plus.
  rewrite <- Zle_Qle. lia.
Qed.

Lemma diff_times_spaced sampling_rate idx :
  (0 < sampling_rate)%Q ->
  StronglySorted (fun p q => p + 2 <= q) idx ->
  Forall (fun v => (2 / sampling_rate <= v)%Q)
         (diff (map (fun i => (of_index i / sampling_rate)%Q) idx)).
Proof.
  intros Hr Hs.
  assert (Hinv : (0 < / sampling_rate)%Q) by (apply Qinv_lt_0_compat; exact Hr).
  induction Hs as [| p idx Hs IH Hall]; [constructor |].
  destruct idx as [| q idx]; [constructor |].
  change (diff (map (fun i => (of_index i / sampling_rate)%Q) (p :: q :: idx)))
    with ((of_index q / sampling_rate - of_index p / sampling_rate)%Q
            :: diff (map (fun i => (of_index i / sampling_rate)%Q) (q :: idx))).
  constructor; [| exact IH].
  inversion Hall as [| ? ? Hpq _]; subst.
  pose proof (@of_index_gap p q Hpq) as Hg.
  unfold Qdiv. set (v := (/ sampling_rate)%Q) in *.
  assert (Hm : ((of_index p + 2) * v <= of_index q * v)%Q)
    by (apply Qmult_le_compat_r; [exact Hg | apply Qlt_le_weak; exact Hinv]).
  lra.
Qed.

(** X9: in exact arithmetic, for a positive sampling rate, the intervals
    between the spikes that detection reports are computed without error,
    are one fewer than the spikes, and are each at least two sample
    periods long (2000 / sampling_rate milliseconds), hence positive.  In
    float64 the bound holds up to rounding only. *)
Theorem isi_of_detected_spikes signal sampling_rate threshold :
  (0 < sampling_rate)%Q ->
  exists isi_values,
    compute_isi (detect_action_potentials signal sampling_rate threshold)
      = Ok isi_values /\
    units isi_values = milliseconds /\
    length (magnitude isi_values)
      = length (detect_action_potentials signal sampling_rate threshold) - 1 /\
    Forall (fun v => (2000 / sampling_rate <= v)%Q /\ (0 < v)%Q)
           (magnitude isi_values).
Proof.
  intros Hr. rewrite compute_isi_eq. eexists. split; [reflexivity |].
  split; [reflexivity |]. simpl magnitude. split.
  - rewrite length_map. apply diff_length.
  - apply Forall_map. unfold detect_action_potentials.
    eapply Forall_impl;
      [| apply (diff_times_spaced Hr),
           DetectionBounds.spike_spacing_strong].
    intros v Hv. simpl.
    assert (Hinv : (0 < / sampling_rate)%Q) by (apply Qinv_lt_0_compat; exact Hr).
    unfold Qdiv in *. set (w := (/ sampling_rate)%Q) in *. split; lra.
Qed.

(** The theorem on a recording with two spikes, sampled at 1 kHz. *)
Lemma isi_of_detected_spikes_witness :
  (0 < 1000)%Q /\
  exists isi_values,
    compute_isi (detect_action_potentials [0; -1; 0; -2; 0]%Q 1000 (-1 # 2))
      = Ok isi_values /\
    units isi_values = milliseconds /\
    length (magnitude isi_values)
      = length (detect_action_potentials [0; -1; 0; -2; 0]%Q 1000 (-1 # 2)) - 1 /\
    Forall (fun v => (2000 / 1000 <= v)%Q /\ (0 < v)%Q)
           (magnitude isi_values).
Proof.
  split; [reflexivity |].
  apply (@isi_of_detected_spikes [0; -1; 0; -2; 0]%Q 1000 (-1 # 2)).
  reflexivity.
Defined.

End IntervalSums.

(* ===================================================================== *)
(** * Further properties of the band-pass filter *)
(* ===================================================================== *)

Module FilterLinearity.

Import Filtering FilterFacts.

Lemma sections_step_zero sos : forall zi x_n,
  at_rest zi -> (x_n == 0)%Q ->
  (fst (sections_step sos zi x_n) == 0)%Q /\
  at_rest (snd (sections_step sos zi x_n)).
Proof.
  induction sos as [| s sos IH]; intros zi x_n Hz Hx; simpl.
  - split; [exact Hx | constructor].
  - destruct zi as [| [z0 z1] zi]; simpl; [split; [exact Hx | constructor] |].
    inversion Hz as [| ? ? [H0 H1] Hrest]; subst. simpl in H0, H1.
    set (y := (b0 s * x_n + z0)%Q).
    assert (Hy : (y == 0)%Q) by (unfold y; rewrite Hx, H0; ring).
    destruct (IH zi y Hrest Hy) as (Hout & Hzi).
    destruct (sections_step sos zi y) as [out rest]. simpl in *.
    split; [exact Hout |]. constructor; [| exact Hzi]. simpl.
    split; rewrite Hx, Hy, ?H1; ring.
Qed.

Lemma sosfilt_from_zero sos x : forall zi,
  at_rest zi -> Forall (fun v => (v == 0)%Q) x ->
  Forall (fun v => (v == 0)%Q) (sosfilt_from sos zi x).
Proof.
  induction x as [| x_n x IH]; intros zi Hz Hx; simpl; [constructor |].
  inversion Hx as [| ? ? Hn Hrest]; subst.
  destruct (sections_step_zero sos Hz Hn) as (Hout & Hzi).
  destruct (sections_step sos zi x_n) as [y zi']. simpl in *.
  constructor; [exact Hout | apply IH; assumption].
Qed.

Lemma initial_at_rest (sos : list sos_section) :
  at_rest (map (fun _ => (0, 0)%Q) sos).
Proof.
  induction sos; simpl; constructor; [split; reflexivity | assumption].
Qed.

(** X10: for valid cutoffs, a recording of zeros is filtered to a recording
    of zeros of the same length. *)
Theorem bandpass_of_zeros env signal sampling_rate freq_min freq_max :
  (0 < freq_min)%Q -> (freq_min < freq_max)%Q ->
  (freq_max < sampling_rate / 2)%Q ->
  Forall (fun v => (v == 0)%Q) signal ->
  exists out,
    ActionPotential.bandpass_filter env signal sampling_rate freq_min freq_max
      = Ok out /\
    length out = length signal /\
    Forall (fun v => (v == 0)%Q) out.
Proof.
  intros Hmin Hlt Hmax Hzero.
  assert (Hv : valid_band sampling_rate freq_min freq_max)
    by (repeat split; assumption).
  unfold ActionPotential.bandpass_filter.
  rewrite (butter_bandpass_valid (butter_design env) 4 Hv). simpl.
  eexists. split; [reflexivity |]. split; [apply sosfilt_length |].
  apply sosfilt_from_zero; [apply initial_at_rest | exact Hzero].
Qed.

(** The theorem on four zero samples, 1 Hz to 100 Hz at 1 kHz. *)
Lemma bandpass_of_zeros_witness :
  (0 < 1)%Q /\ (1 < 100)%Q /\ (100 < 1000 / 2)%Q /\
  Forall (fun v => (v == 0)%Q) [0; 0; 0; 0]%Q /\
  exists out,
    ActionPotential.bandpass_filter bare_env [0; 0; 0; 0]%Q 1000 1 100 = Ok out /\
    length out = 4 /\
    Forall (fun v => (v == 0)%Q) out.
Proof.
  assert (Hz : Forall (fun v => (v == 0)%Q) [0; 0; 0; 0]%Q)
    by (repeat constructor).
  split; [reflexivity | split; [reflexivity | split; [reflexivity |]]].
  split; [exact Hz |].
  apply (@bandpass_of_zeros bare_env [0; 0; 0; 0]%Q 1000 1 100);
    [reflexivity | reflexivity | reflexivity | exact Hz].
Defined.

Lemma sosfilt_from_prefix sos x y : forall zi,
  firstn (length x) (sosfilt_from sos zi (x ++ y)) = sosfilt_from sos zi x.
Proof.
  induction x as [| x_n x IH]; intros zi; simpl; [reflexivity |].
  destruct (sections_step sos zi x_n) as [out zi']. simpl.
  rewrite IH. reflexivity.
Qed.

(** X11: the filter is causal: the output for the first samples of a
    recording does not depend on the samples that follow. *)
Theorem bandpass_causal env x y sampling_rate freq_min freq_max out :
  ActionPotential.bandpass_filter env (x ++ y) sampling_rate freq_min freq_max
    = Ok out ->
  ActionPotential.bandpass_filter env x sampling_rate freq_min freq_max
    = Ok (firstn (length x) out).
Proof.
  unfold ActionPotential.bandpass_filter.
  destruct (butter_bandpass (butter_design env) 4 freq_min freq_max
              sampling_rate) as [sos | e]; simpl; [| discriminate].
  intros H. inversion H; subst out. unfold sosfilt.
  rewrite sosfilt_from_prefix. reflexivity.
Qed.

(** The theorem on a recording of two samples followed by two more. *)
Lemma bandpass_causal_witness :
  ActionPotential.bandpass_filter bare_env ([0; 1] ++ [0; -1])%Q 1000 1 100
    = Ok [0; 1; 0; -1]%Q /\
  ActionPotential.bandpass_filter bare_env [0; 1]%Q 1000 1 100
    = Ok (firstn (length [0; 1]%Q) [0; 1; 0; -1]%Q).
Proof.
  assert (H : ActionPotential.bandpass_filter bare_env ([0; 1] ++ [0; -1])%Q
                1000 1 100 = Ok [0; 1; 0; -1]%Q) by reflexivity.
  split; [exact H |].
  exact (@bandpass_causal bare_env [0; 1]%Q [0; -1]%Q 1000 1 100 _ H).
Defined.

Lemma sections_step_mixed a b sos : forall z1 z2 z3 x1 x2 x3,
  mixed a b z1 z2 z3 -> (x3 == a * x1 + b * x2)%Q ->
  (fst (sections_step sos z3 x3)
   == a * fst (sections_step sos z1 x1) + b * fst (sections_step sos z2 x2))%Q /\
  mixed a b (snd (sections_step sos z1 x1)) (snd (sections_step sos z2 x2))
            (snd (sections_step sos z3 x3)).
Proof.
  induction sos as [| s sos IH]; intros z1 z2 z3 x1 x2 x3 Hz Hx; simpl.
  - split; [exact Hx | constructor].
  - destruct Hz as [| [u0 u1] [v0 v1] [w0 w1] z1 z2 z3 H0 H1 Hz]; simpl in *.
    + split; [exact Hx | constructor].
    + set (y1 := (b0 s * x1 + u0)%Q). set (y2 := (b0 s * x2 + v0)%Q).
      set (y3 := (b0 s * x3 + w0)%Q).
      assert (Hy : (y3 == a * y1 + b * y2)%Q)
        by (unfold y1, y2, y3; rewrite Hx, H0; ring).
      destruct (IH z1 z2 z3 y1 y2 y3 Hz Hy) as (Hout & Hrest).
      destruct (sections_step sos z1 y1) as [o1 r1].
      destruct (sections_step sos z2 y2) as [o2 r2].
      destruct (sections_step sos z3 y3) as [o3 r3]. simpl in *.
      split; [exact Hout |]. constructor; [| | exact Hrest]; simpl.
      * rewrite Hx, Hy, H1. ring.
      * rewrite Hx, Hy. ring.
Qed.

Lemma sosfilt_from_mixed a b sos x : forall y z1 z2 z3 k,
  mixed a b z1 z2 z3 -> length x = length y ->
  (at_ (sosfilt_from sos z3 (mix a x b y)) k
   == a * at_ (sosfilt_from sos z1 x) k + b * at_ (sosfilt_from sos z2 y) k)%Q.
Proof.
  unfold at_.
  induction x as [| x_n x IH]; intros y z1 z2 z3 k Hz Hlen.
  - destruct y; [| discriminate Hlen]. simpl. destruct k; ring.
  - destruct y as [| y_n y]; [discriminate Hlen |].
    change (mix a (x_n :: x) b (y_n :: y))
      with ((a * x_n + b * y_n)%Q :: mix a x b y).
    simpl sosfilt_from.
    destruct (@sections_step_mixed a b sos z1 z2 z3 x_n y_n
                (a * x_n + b * y_n)%Q Hz ltac:(reflexivity)) as (Hout & Hrest).
    destruct (sections_step sos z1 x_n) as [o1 r1].
    destruct (sections_step sos z2 y_n) as [o2 r2].
    destruct (sections_step sos z3 (a * x_n + b * y_n)%Q) as [o3 r3].
    simpl in Hout, Hrest.
    destruct k as [| k]; simpl; [exact Hout |].
    apply IH; [exact Hrest | simpl in Hlen; lia].
Qed.

Lemma initial_mixed a b (sos : list sos_section) :
  mixed a b (map (fun _ => (0, 0)%Q) sos) (map (fun _ => (0, 0)%Q) sos)
            (map (fun _ => (0, 0)%Q) sos).
Proof.
  induction sos; simpl; constructor; simpl; try ring. assumption.
Qed.

Lemma mix_length a x b y : length x = length y -> length (mix a x b y) = length x.
Proof.
  intros H. unfold mix. rewrite length_map, length_combine. lia.
Qed.

(** X12: the filter is linear: filtering the combination a * x + b * y of
    two recordings of equal length gives the same combination of the two
    filtered recordings, sample by sample. *)
Theorem bandpass_linear env a x b y sampling_rate freq_min freq_max out_x out_y :
  length x = length y ->
  ActionPotential.bandpass_filter env x sampling_rate freq_min freq_max
    = Ok out_x ->
  ActionPotential.bandpass_filter env y sampling_rate freq_min freq_max
    = Ok out_y ->
  exists out,
    ActionPotential.bandpass_filter env (mix a x b y) sampling_rate
      freq_min freq_max = Ok out /\
    length out = length x /\
    forall k, (at_ out k == a * at_ out_x k + b * at_ out_y k)%Q.
Proof.
  unfold ActionPotential.bandpass_filter. intros Hlen.
  destruct (butter_bandpass (butter_design env) 4 freq_min freq_max
              sampling_rate) as [sos | e]; simpl; [| discriminate].
  intros Hx Hy. inversion Hx; subst out_x. inversion Hy; subst out_y.
  eexists. split; [reflexivity |]. split.
  - rewrite sosfilt_length. apply mix_length. exact Hlen.
  - intros k. unfold sosfilt.
    apply sosfilt_from_mixed; [apply initial_mixed | exact Hlen].
Qed.

(** The theorem for 2 * x + 3 * y on two recordings of two samples. *)
Lemma bandpass_linear_witness :
  length [0; 1]%Q = length [1; -1]%Q /\
  exists out,
    ActionPotential.bandpass_filter bare_env (mix 2 [0; 1]%Q 3 [1; -1]%Q)
      1000 1 100 = Ok out /\
    length out = 2 /\
    forall k, (at_ out k == 2 * at_ [0; 1]%Q k + 3 * at_ [1; -1]%Q k)%Q.
Proof.
  split; [reflexivity |].
  apply (@bandpass_linear bare_env 2 [0; 1]%Q 3 [1; -1]%Q 1000 1 100
           [0; 1]%Q [1; -1]%Q); reflexivity.
Defined.

(** X13: for valid cutoffs, [preprocess_signal] of the action-potential
    script fails exactly when detrending fails, with the same exception;
    otherwise it returns as many samples as detrending returned. *)
Theorem preprocess_signal_outcome
  env signal sampling_rate detrend_signal freq_min freq_max :
  (0 < freq_min)%Q -> (freq_min < freq_max)%Q ->
  (freq_max < sampling_rate / 2)%Q ->
  match detrend_stage env detrend_signal signal with
  | Ok detrended =>
      exists out,
        ActionPotential.preprocess_signal env signal sampling_rate
          detrend_signal freq_min freq_max = Ok out /\
        length out = length detrended
  | Raise e =>
      ActionPotential.preprocess_signal env signal sampling_rate
        detrend_signal freq_min freq_max = Raise e
  end.
Proof.
  intros Hmin Hlt Hmax.
  assert (Hv : valid_band sampling_rate freq_min freq_max)
    by (repeat split; assumption).
  unfold ActionPotential.preprocess_signal, detrend_stage.
  destruct (if detrend_signal then detrend env signal else Ok signal)
    as [d | e]; simpl; [| reflexivity].
  unfold ActionPotential.bandpass_filter.
  rewrite (butter_bandpass_valid (butter_design env) 4 Hv). simpl.
  eexists. split; [reflexivity | apply sosfilt_length].
Qed.

(** The theorem with the defaults of the script: detrending on, 1 Hz to
    100 Hz. *)
Lemma preprocess_signal_outcome_witness :
  (0 < 1)%Q /\ (1 < 100)%Q /\ (100 < 1000 / 2)%Q /\
  exists out,
    ActionPotential.preprocess_signal bare_env [0; 1; 0; -1]%Q 1000 true 1 100
      = Ok out /\
    length out = 4.
Proof.
  split; [reflexivity | split; [reflexivity | split; [reflexivity |]]].
  apply (@preprocess_signal_outcome bare_env [0; 1; 0; -1]%Q 1000 true 1 100);
    reflexivity.
Defined.

End FilterLinearity.

(* ===================================================================== *)
(** * Further properties of data loading *)
(* ===================================================================== *)

Module LoadingOutcomes.

Import Effects.

Lemma validate_data_cases samples sampling_rate tr :
  (is_py_number sampling_rate /\ (0 < num_value sampling_rate)%Q /\
   Pharmacological.validate_data (Pharmacological.Array1D samples)
     sampling_rate tr
     = (Ok tt,
        tr ++ [LogInfo
                 "Data validation passed. Signal and sampling rate are valid."
                 []])) \/
  (~ (is_py_number sampling_rate /\ (0 < num_value sampling_rate)%Q) /\
   Pharmacological.validate_data (Pharmacological.Array1D samples)
     sampling_rate tr
     = (Raise (ValueError "Sampling rate must be a positive number."),
        tr ++ [LogError "Sampling rate must be a positive number." []])).
Proof.
  unfold Pharmacological.validate_data. cbv zeta.
  change (negb true) with false. cbv iota.
  destruct sampling_rate as [z | q | q]; simpl negb; simpl orb.
  - destruct (Qle_bool (num_value (PyInt z)) 0) eqn:E.
    + right. apply Qle_bool_iff in E. split; [| reflexivity].
      intros (_ & H). apply (Qlt_not_le _ _ H). exact E.
    + left. apply FilterFacts.Qle_bool_false_iff in E.
      split; [exact I | split; [exact E | reflexivity]].
  - destruct (Qle_bool (num_value (PyFloat q)) 0) eqn:E.
    + right. apply Qle_bool_iff in E. split; [| reflexivity].
      intros (_ & H). apply (Qlt_not_le _ _ H). exact E.
    + left. apply FilterFacts.Qle_bool_false_iff in E.
      split; [exact I | split; [exact E | reflexivity]].
  - right. split; [| reflexivity]. intros (H & _). exact H.
Qed.


Lemma bind_ok_inv {A B} (m : M A) (k : A -> M B) tr b tr' :
  bind m k tr = (Ok b, tr') ->
  exists a tr1, m tr = (Ok a, tr1) /\ k a tr1 = (Ok b, tr').
Proof.
  unfold bind. destruct (m tr) as [[a | e] tr1]; [| discriminate].
  intros H. exists a, tr1. split; [reflexivity | exact H].
Qed.

(** X15: whatever [load_data] of the pharmacological script returns has
    passed validation: the sampling rate is an [int] or a [float] and
    positive. *)
Theorem load_data_returns_valid_rate
  env file_path file_type tr signal sampling_rate tr' :
  Pharmacological.load_data env file_path file_type tr
    = (Ok (signal, sampling_rate), tr') ->
  is_py_number sampling_rate /\ (0 < num_value sampling_rate)%Q.
Proof.
  unfold Pharmacological.load_data. intros H.
  apply bind_ok_inv in H. destruct H as (loaded & tr1 & _ & H).
  apply bind_ok_inv in H. destruct H as ([] & tr2 & Hv & H).
  unfold ret in H. inversion H; subst loaded tr2. simpl in Hv.
  destruct (validate_data_cases signal sampling_rate tr1)
    as [(Hn & Hp & _) | (_ & Hr)].
  - split; assumption.
  - rewrite Hr in Hv. discriminate Hv.
Qed.

(** The theorem on the recording [cell.abf]. *)
Lemma load_data_returns_valid_rate_witness :
  fst (Pharmacological.load_data lab_env "cell.abf" "abf" [])
    = Ok ([0; -40; 0]%Q, PyInt 20000) /\
  is_py_number (PyInt 20000) /\ (0 < num_value (PyInt 20000))%Q.
Proof.
  split; [reflexivity |].
  apply (@load_data_returns_valid_rate lab_env "cell.abf" "abf" []
           [0; -40; 0]%Q (PyInt 20000)
           (snd (Pharmacological.load_data lab_env "cell.abf" "abf" []))).
  reflexivity.
Defined.

Lemma bind_raise_inv {A B} (m : M A) (k : A -> M B) tr e tr' :
  bind m k tr = (Raise e, tr') ->
  m tr = (Raise e, tr') \/
  exists a tr1, m tr = (Ok a, tr1) /\ k a tr1 = (Raise e, tr').
Proof.
  unfold bind. destruct (m tr) as [[a | e0] tr1]; intros H.
  - right. exists a, tr1. split; [reflexivity | exact H].
  - left. inversion H; subst. reflexivity.
Qed.

Lemma try_except_raise_inv {A} (body : M A) C handler tr e tr' :
  try_except body C handler tr = (Raise e, tr') ->
  (exists e0 tr1,
     body tr = (Raise e0, tr1) /\ isinstance e0 C = true /\
     handler e0 tr1 = (Raise e, tr')) \/
  (body tr = (Raise e, tr') /\ isinstance e C = false).
Proof.
  unfold try_except. destruct (body tr) as [[a | e0] tr1]; [discriminate |].
  destruct (isinstance e0 C) eqn:E; intros H.
  - left. exists e0, tr1. repeat split; assumption.
  - right. inversion H; subst. split; [reflexivity | exact E].
Qed.

Lemma lift_raise_inv {A} (r : result A) tr e tr' :
  lift r tr = (Raise e, tr') -> r = Raise e.
Proof. unfold lift. intros H. inversion H. reflexivity. Qed.

Lemma item0_raise_inv {A} (xs : list A) e :
  item0 xs = Raise e -> isinstance e "Exception" = true.
Proof.
  destruct xs; simpl; [| discriminate].
  intros H. inversion H. reflexivity.
Qed.

(** The body of the ABF branch raises exceptions derived from [Exception]
    only, and so does the body of the Neo branch. *)
Lemma abf_body_exceptions env file_path tr e tr' :
  library_exceptions env ->
  (abf <- lift (pyabf_ABF env file_path) ;;
   signal <- lift (item0 (abf_data abf)) ;;
   _ <- emit (LogInfo
          "Loaded ABF data from {file_path} with sampling rate {sampling_rate} Hz."
          [AStr file_path; ANum (PyInt (abf_dataRate abf))]) ;;
   ret (signal, PyInt (abf_dataRate abf)))%eff tr = (Raise e, tr') ->
  isinstance e "Exception" = true.
Proof.
  intros (Habf & _) H.
  apply bind_raise_inv in H. destruct H as [H | (abf & tr1 & _ & H)].
  { apply lift_raise_inv in H. eapply Habf, H. }
  apply bind_raise_inv in H. destruct H as [H | (sig & tr2 & _ & H)].
  { apply lift_raise_inv in H. eapply item0_raise_inv, H. }
  apply bind_raise_inv in H. destruct H as [H | (u & tr3 & _ & H)];
    discriminate H.
Qed.

Lemma neo_body_exceptions {A} env file_path
  (k : Segment -> AnalogSignal -> M A) tr e tr' :
  library_exceptions env ->
  (forall g s t e1 t',
     k g s t = (Raise e1, t') -> isinstance e1 "Exception" = true) ->
  (reader <- lift (NeoHdf5IO env file_path) ;;
   block <- lift (read_block reader) ;;
   segment <- lift (item0 (segments block)) ;;
   s0 <- lift (item0 (analogsignals segment)) ;;
   k segment s0)%eff tr = (Raise e, tr') ->
  isinstance e "Exception" = true.
Proof.
  intros (_ & Hneo & Hread) Hk H.
  apply bind_raise_inv in H. destruct H as [H | (reader & tr1 & Hopen & H)].
  { apply lift_raise_inv in H. eapply Hneo, H. }
  apply bind_raise_inv in H. destruct H as [H | (block & tr2 & _ & H)].
  { apply lift_raise_inv in H. unfold lift in Hopen.
    inversion Hopen as [[Ho Ht]]. eapply Hread; [exact Ho | exact H]. }
  apply bind_raise_inv in H. destruct H as [H | (segment & tr3 & _ & H)].
  { apply lift_raise_inv in H. eapply item0_raise_inv, H. }
  apply bind_raise_inv in H. destruct H as [H | (s0 & tr4 & _ & H)].
  { apply lift_raise_inv in H. eapply item0_raise_inv, H. }
  eapply Hk, H.
Qed.

Lemma neo_tail_exceptions file_path segment s0 t e1 t' :
  (s1 <- lift (item0 (analogsignals segment)) ;;
   _ <- emit (LogInfo
          "Loaded Neo data from {file_path} with sampling rate {sampling_rate} Hz."
          [AStr file_path; ANum (sig_sampling_rate_magnitude s1)]) ;;
   ret (concat (sig_magnitude s0), sig_sampling_rate_magnitude s1))%eff t
    = (Raise e1, t') ->
  isinstance e1 "Exception" = true.
Proof.
  intros H.
  apply bind_raise_inv in H. destruct H as [H | (s1 & tr1 & _ & H)].
  { apply lift_raise_inv in H. eapply item0_raise_inv, H. }
  apply bind_raise_inv in H. destruct H as [H | (u & tr2 & _ & H)];
    discriminate H.
Qed.

(** X16: when the format libraries raise exceptions derived from
    [Exception] only, [load_data] of the pharmacological script fails with
    DataLoadingError (opening or reading failed, or the file type is
    unknown) or with ValueError (validation failed), and with nothing
    else. *)
Theorem load_data_error_classes env file_path file_type tr e :
  library_exceptions env ->
  fst (Pharmacological.load_data env file_path file_type tr) = Raise e ->
  exn_class e = "DataLoadingError"%string \/ exn_class e = "ValueError"%string.
Proof.
  intros Hlib H.
  destruct (Pharmacological.load_data env file_path file_type tr)
    as [r tr'] eqn:Hrun.
  simpl in H. subst r. unfold Pharmacological.load_data in Hrun.
  apply bind_raise_inv in Hrun.
  destruct Hrun as [Hstage | (loaded & tr1 & _ & Hval)].
  - left. destruct (String.eqb file_type "abf").
    + apply try_except_raise_inv in Hstage.
      destruct Hstage as [(e0 & tr1 & _ & _ & Hh) | (Hbody & Hno)].
      * inversion Hh. reflexivity.
      * rewrite (@abf_body_exceptions env file_path tr e tr' Hlib Hbody) in Hno.
        discriminate Hno.
    + destruct (String.eqb file_type "neo").
      * apply try_except_raise_inv in Hstage.
        destruct Hstage as [(e0 & tr1 & _ & _ & Hh) | (Hbody & Hno)].
        -- inversion Hh. reflexivity.
        -- assert (Hyes : isinstance e "Exception" = true).
           { refine (@neo_body_exceptions _ env file_path
                       (fun segment s0 => _) tr e tr' Hlib _ Hbody).
             intros g s t e1 t'. apply neo_tail_exceptions. }
           rewrite Hyes in Hno. discriminate Hno.
      * inversion Hstage. reflexivity.
  - right. apply bind_raise_inv in Hval.
    destruct Hval as [Hv | (u & tr2 & _ & Hret)]; [| discriminate Hret].
    destruct (validate_data_cases (fst loaded) (snd loaded) tr1)
      as [(_ & _ & Hok) | (_ & Hbad)].
    + rewrite Hok in Hv. discriminate Hv.
    + rewrite Hbad in Hv. inversion Hv. reflexivity.
Qed.

Lemma bare_env_library_exceptions : library_exceptions bare_env.
Proof.
  repeat split; simpl; intros; try discriminate;
    match goal with H : Raise _ = Raise _ |- _ => inversion H; reflexivity end.
Qed.

(** The theorem where no file exists. *)
Lemma load_data_error_classes_witness :
  library_exceptions bare_env /\
  (exists e,
     fst (Pharmacological.load_data bare_env "missing.abf" "abf" []) = Raise e /\
     (exn_class e = "DataLoadingError"%string \/
      exn_class e = "ValueError"%string)).
Proof.
  split; [exact bare_env_library_exceptions |].
  eexists. split; [reflexivity |].
  apply (@load_data_error_classes bare_env "missing.abf" "abf" []);
    [exact bare_env_library_exceptions | reflexivity].
Defined.

(** X17: a Neo container that opens but holds no segment, or whose first
    segment holds no signal, makes the loader of the action-potential
    script fail with IndexError, the loader of the pharmacological script
    with DataLoadingError chained from that IndexError, and the loader of
    the network script with ValueError. *)
Theorem load_data_without_signal env file_path tr reader block :
  NeoHdf5IO env file_path = Ok reader ->
  read_block reader = Ok block ->
  segments block = [] \/
  (exists segment rest,
     segments block = segment :: rest /\ analogsignals segment = []) ->
  ActionPotential.load_data env file_path "neo"
    = Raise (IndexError "list index out of range") /\
  fst (Pharmacological.load_data env file_path "neo" tr)
    = Raise (Pharmacological.DataLoadingError
               ("Could not load Neo data from " ++ file_path ++ ".")
               (Some (IndexError "list index out of range"))) /\
  fst (NetworkDynamics.load_data env file_path tr)
    = Raise (ValueError "Failed to load data. Check file format and path.").
Proof.
  intros Hopen Hread Hempty.
  assert (Hitem :
    (segment <- item0 (segments block) ;;
     item0 (analogsignals segment))%py
    = Raise (IndexError "list index out of range")).
  { destruct Hempty as [-> | (segment & rest & -> & Hs)]; simpl;
      [| rewrite Hs]; reflexivity. }
  split; [| split].
  - rewrite LoadingFacts.action_potential_load_data_cases.
    change ("abf" =? "neo")%string with false.
    change ("neo" =? "neo")%string with true. cbv iota.
    unfold ActionPotential.load_neo_data. rewrite Hopen. simpl Py.bind.
    rewrite Hread. simpl Py.bind.
    destruct (item0 (segments block)) as [segment |]; simpl in *;
      [| congruence].
    rewrite Hitem. reflexivity.
  - unfold Pharmacological.load_data.
    change ("neo" =? "abf")%string with false.
    change ("neo" =? "neo")%string with true. cbv iota.
    unfold bind, try_except, lift. rewrite Hopen, Hread.
    destruct (item0 (segments block)) as [segment |]; simpl in Hitem.
    + rewrite Hitem. reflexivity.
    + inversion Hitem. reflexivity.
  - unfold NetworkDynamics.load_data, bind, try_except, lift.
    rewrite Hopen, Hread.
    destruct (item0 (segments block)) as [segment |]; simpl in Hitem.
    + rewrite Hitem. reflexivity.
    + inversion Hitem. reflexivity.
Qed.

(** The theorem on the container [empty.h5]. *)
Lemma load_data_without_signal_witness :
  NeoHdf5IO lab_env "empty.h5" = Ok {| read_block := Ok {| segments := [] |} |} /\
  ActionPotential.load_data lab_env "empty.h5" "neo"
    = Raise (IndexError "list index out of range") /\
  fst (Pharmacological.load_data lab_env "empty.h5" "neo" [])
    = Raise (Pharmacological.DataLoadingError
               ("Could not load Neo data from " ++ "empty.h5" ++ ".")
               (Some (IndexError "list index out of range"))) /\
  fst (NetworkDynamics.load_data lab_env "empty.h5" [])
    = Raise (ValueError "Failed to load data. Check file format and path.").
Proof.
  split; [reflexivity |].
  apply (@load_data_without_signal lab_env "empty.h5" []
           {| read_block := Ok {| segments := [] |} |} {| segments := [] |});
    [reflexivity | reflexivity | left; reflexivity].
Defined.

(** X18: a recording whose file reports a sampling rate that is not
    positive is returned as it is by the loader of the action-potential
    script, and rejected with ValueError (not DataLoadingError) by the
    loader of the pharmacological script. *)
Theorem load_data_nonpositive_rate env file_path tr abf channel rest :
  pyabf_ABF env file_path = Ok abf ->
  abf_data abf = channel :: rest ->
  (abf_dataRate abf <= 0)%Z ->
  ActionPotential.load_data env file_path "abf"
    = Ok (channel, PyInt (abf_dataRate abf)) /\
  fst (Pharmacological.load_data env file_path "abf" tr)
    = Raise (ValueError "Sampling rate must be a positive number.").
Proof.
  intros Hopen Hdata Hrate. split.
  - rewrite LoadingFacts.action_potential_load_data_cases. simpl String.eqb.
    cbv iota. unfold ActionPotential.load_abf_data.
    rewrite Hopen. simpl. rewrite Hdata. reflexivity.
  - unfold Pharmacological.load_data, bind, try_except, lift.
    simpl String.eqb. cbv iota. rewrite Hopen, Hdata. simpl.
    destruct (validate_data_cases channel (PyInt (abf_dataRate abf))
                (tr ++ [LogInfo
                  "Loaded ABF data from {file_path} with sampling rate {sampling_rate} Hz."
                  [AStr file_path; ANum (PyInt (abf_dataRate abf))]]))
      as [(_ & Hpos & _) | (_ & ->)]; [| reflexivity].
    exfalso. simpl in Hpos. rewrite <- (Zlt_Qlt 0) in Hpos. lia.
Qed.

(** The theorem on the recording [silent.abf]. *)
Lemma load_data_nonpositive_rate_witness :
  pyabf_ABF lab_env "silent.abf"
    = Ok {| abf_data := [[0; -40; 0]]%Q; abf_dataRate := 0 |} /\
  ActionPotential.load_data lab_env "silent.abf" "abf"
    = Ok ([0; -40; 0]%Q, PyInt 0) /\
  fst (Pharmacological.load_data lab_env "silent.abf" "abf" [])
    = Raise (ValueError "Sampling rate must be a positive number.").
Proof.
  split; [reflexivity |].
  apply (@load_data_nonpositive_rate lab_env "silent.abf" []
           {| abf_data := [[0; -40; 0]]%Q; abf_dataRate := 0 |}
           [0; -40; 0]%Q []);
    [reflexivity | reflexivity | simpl; lia].
Defined.

(** X19: when the format library raises exceptions derived from
    [Exception] only, [load_data] of the network script either returns,
    writing nothing to the log, or fails with its one ValueError, not
    chained from the original exception, after one error record. *)
Theorem network_load_data_outcome env file_path tr :
  library_exceptions env ->
  match NetworkDynamics.load_data env file_path tr with
  | (Ok _, tr') => tr' = tr
  | (Raise e, tr') =>
      e = ValueError "Failed to load data. Check file format and path." /\
      exists e0, tr' = tr ++ [LogError "Data loading error: {e}" [AExn e0]]
  end.
Proof.
  intros (_ & Hneo & Hread).
  unfold NetworkDynamics.load_data, bind, try_except, lift, emit, raise, ret.
  destruct (NeoHdf5IO env file_path) as [reader | e] eqn:Hopen.
  - destruct (read_block reader) as [block | e] eqn:Hblock.
    + destruct (segments block) as [| segment rest]; simpl.
      { split; [reflexivity | eexists; reflexivity]. }
      destruct (analogsignals segment) as [| s0 more]; simpl.
      { split; [reflexivity | eexists; reflexivity]. }
      reflexivity.
    + rewrite (Hread _ _ _ Hopen Hblock).
      split; [reflexivity | eexists; reflexivity].
  - rewrite (Hneo _ _ Hopen). split; [reflexivity | eexists; reflexivity].
Qed.

(** The theorem where no file exists. *)
Lemma network_load_data_outcome_witness :
  library_exceptions bare_env /\
  fst (NetworkDynamics.load_data bare_env "missing.h5" [])
    = Raise (ValueError "Failed to load data. Check file format and path.").
Proof.
  split; [exact bare_env_library_exceptions |].
  pose proof (@network_load_data_outcome bare_env "missing.h5" []
                bare_env_library_exceptions) as H.
  destruct (NetworkDynamics.load_data bare_env "missing.h5" []) as [[a | e] tr'] eqn:E.
  - vm_compute in E. discriminate E.
  - destruct H as [-> _]. reflexivity.
Defined.

End LoadingOutcomes.

(* ===================================================================== *)
(** * Further properties of curve fitting *)
(* ===================================================================== *)

Module FittingOutcomes.

Import Effects FittingFacts.

(** X20: [fit_dose_response] runs the optimizer exactly once.  It returns
    the optimizer's result unchanged; it turns a RuntimeError into
    AnalysisError; any other exception of the optimizer reaches the caller
    as it is, without a log record. *)
Theorem fit_dose_response_outcome env doses responses tr :
  match curve_fit env (dose_response_problem doses responses) with
  | Ok fitted =>
      Pharmacological.fit_dose_response env doses responses tr
      = (Ok fitted,
         tr ++ [CurveFitCall (dose_response_problem doses responses);
                LogInfo "Successfully fitted dose-response curve." []])
  | Raise e =>
      if isinstance e "RuntimeError" then
        Pharmacological.fit_dose_response env doses responses tr
        = (Raise (Pharmacological.AnalysisError
                    "Curve fitting failed. Check your dose-response data."
                    (Some e)),
           tr ++ [CurveFitCall (dose_response_problem doses responses);
                  LogError "Failed to fit dose-response curve: {e}" [AExn e]])
      else
        Pharmacological.fit_dose_response env doses responses tr
        = (Raise e, tr ++ [CurveFitCall (dose_response_problem doses responses)])
  end /\
  fit_calls (snd (Pharmacological.fit_dose_response env doses responses tr))
  = fit_calls tr + 1.
Proof.
  unfold Pharmacological.fit_dose_response, bind, try_except, call_curve_fit,
    emit, raise, ret.
  fold (dose_response_problem doses responses).
  destruct (curve_fit env (dose_response_problem doses responses)) as [r | e].
  - split; [rewrite <- app_assoc; reflexivity |]. simpl snd.
    rewrite !fit_calls_app. unfold fit_calls at 2 3. simpl. lia.
  - destruct (isinstance e "RuntimeError").
    + split; [rewrite <- app_assoc; reflexivity |]. simpl snd.
      rewrite !fit_calls_app. unfold fit_calls at 2 3. simpl. lia.
    + split; [reflexivity |]. simpl snd.
      rewrite fit_calls_app. reflexivity.
Qed.

Lemma column_missing data name :
  ~ In name (map fst data) ->
  SynapticIO.column data name = Raise (SynapticIO.KeyError name).
Proof.
  unfold SynapticIO.column.
  induction data as [| [k v] data IH]; simpl; intros H; [reflexivity |].
  destruct (String.eqb_spec k name) as [-> | Hne].
  - exfalso. apply H. left. reflexivity.
  - apply IH. intros Hin. apply H. right. exact Hin.
Qed.

(** X21: on a table without an [Input] column or without an [Output]
    column, [analyze_synaptic_io] fails with KeyError and the optimizer is
    not run. *)
Theorem analyze_synaptic_io_missing_column env data tr :
  ~ In "Input"%string (map fst data) \/ ~ In "Output"%string (map fst data) ->
  exists e,
    SynapticIO.analyze_synaptic_io env data tr = (Raise e, tr) /\
    exn_class e = "KeyError"%string.
Proof.
  intros H. unfold SynapticIO.analyze_synaptic_io, bind, lift.
  destruct (SynapticIO.column data "Input") as [input_data | e] eqn:Ein.
  - destruct H as [H | H].
    + rewrite (@column_missing data _ H) in Ein. discriminate Ein.
    + rewrite (@column_missing data _ H). eexists. split; reflexivity.
  - unfold SynapticIO.column in Ein.
    destruct (find (fun kv => String.eqb (fst kv) "Input") data) as [[k v] |];
      [discriminate Ein |].
    inversion Ein. eexists. split; reflexivity.
Qed.

(** The theorem on a table that has no [Output] column. *)
Lemma analyze_synaptic_io_missing_column_witness :
  (~ In "Input"%string (map fst [("Input"%string, [1; 2]%Q)]) \/
   ~ In "Output"%string (map fst [("Input"%string, [1; 2]%Q)])) /\
  exists e,
    SynapticIO.analyze_synaptic_io lab_env [("Input"%string, [1; 2]%Q)] []
      = (Raise e, []) /\
    exn_class e = "KeyError"%string.
Proof.
  assert (H : ~ In "Input"%string (map fst [("Input"%string, [1; 2]%Q)]) \/
              ~ In "Output"%string (map fst [("Input"%string, [1; 2]%Q)])).
  { right. simpl. intros [H | []]. discriminate H. }
  split; [exact H |].
  exact (@analyze_synaptic_io_missing_column lab_env
           [("Input"%string, [1; 2]%Q)] [] H).
Defined.

End FittingOutcomes.

(* ===================================================================== *)
(** * Properties of the firing rates *)
(* ===================================================================== *)

Module ResponseFacts.

Import Effects ResponseAnalysis.

(** X22: for integer period bounds and sampling rate, when one of the two
    periods covers no sample (its two ends are the same sample index: the
    ends coincide, or the sampling rate is 0), [detect_firing_rate_change]
    fails with ZeroDivisionError and writes nothing to the log. *)
Theorem firing_rate_zero_window
  signal sampling_rate baseline_period drug_period tr :
  (fst baseline_period * sampling_rate
     = snd baseline_period * sampling_rate)%Z \/
  (fst drug_period * sampling_rate = snd drug_period * sampling_rate)%Z ->
  exists e,
    detect_firing_rate_change signal sampling_rate baseline_period drug_period tr
      = (Raise e, tr) /\
    exn_class e = "ZeroDivisionError"%string.
Proof.
  intros H. unfold detect_firing_rate_change, bind, lift, window_rate.
  cbv zeta.
  destruct (Z.eqb_spec
              (snd baseline_period * sampling_rate
               - fst baseline_period * sampling_rate) 0)
    as [Eb | Eb].
  - eexists. split; reflexivity.
  - destruct H as [H | H]; [exfalso; lia |].
    replace (snd drug_period * sampling_rate
             - fst drug_period * sampling_rate =? 0)%Z with true
      by (symmetry; apply Z.eqb_eq; lia).
    eexists. split; reflexivity.
Qed.

(** The theorem for a baseline period from 5 s to 5 s at 1 kHz. *)
Lemma firing_rate_zero_window_witness :
  ((fst (5, 5) * 1000 = snd (5, 5) * 1000)%Z \/
   (fst (10, 20) * 1000 = snd (10, 20) * 1000)%Z) /\
  exists e,
    detect_firing_rate_change [0; 1; 0]%Q 1000 (5, 5)%Z (10, 20)%Z []
      = (Raise e, []) /\
    exn_class e = "ZeroDivisionError"%string.
Proof.
  assert (H : (fst (5, 5) * 1000 = snd (5, 5) * 1000)%Z \/
              (fst (10, 20) * 1000 = snd (10, 20) * 1000)%Z)
    by (left; reflexivity).
  split; [exact H |].
  exact (@firing_rate_zero_window [0; 1; 0]%Q 1000 (5, 5)%Z (10, 20)%Z [] H).
Defined.

Lemma slice_length x start stop :
  (0 <= start <= stop)%Z ->
  (Z.of_nat (length (slice x start stop)) <= stop - start)%Z.
Proof.
  intros H. unfold slice, adjust_index. cbv zeta.
  destruct (Z.ltb_spec start 0) as [? | _]; [lia |].
  destruct (Z.ltb_spec stop 0) as [? | _]; [lia |].
  pose proof (firstn_le_length
                (Z.to_nat (Z.min stop (Z.of_nat (length x))
                           - Z.min start (Z.of_nat (length x))))
                (skipn (Z.to_nat (Z.min start (Z.of_nat (length x)))) x)) as Hf.
  lia.
Qed.

Lemma peak_count_bound window :
  2 * length (fst (PeakFinding.find_peaks window None)) <= length window.
Proof.
  unfold PeakFinding.find_peaks. simpl fst. rewrite length_map.
  unfold PeakFinding.local_maxima_1d.
  pose proof (@DetectionBounds.maxima_from_count window (length window - 1)
                (length window - 1) 1 ltac:(lia)).
  lia.
Qed.

Lemma window_rate_bounds window start stop sampling_rate :
  (0 < sampling_rate)%Z -> (start < stop)%Z ->
  (Z.of_nat (length window) <= stop - start)%Z ->
  exists r,
    window_rate window start stop sampling_rate = Ok r /\
    (0 <= r)%Q /\ (r <= inject_Z sampling_rate / 2)%Q.
Proof.
  intros Hr Hlt Hlen. unfold window_rate. cbv zeta.
  destruct (Z.eqb_spec (stop - start) 0) as [? | _]; [lia |].
  eexists. split; [reflexivity |].
  pose proof (peak_count_bound window) as Hc.
  set (c := inject_Z (Z.of_nat (length (fst (PeakFinding.find_peaks window None))))).
  set (d := inject_Z (stop - start)).
  set (sr := inject_Z sampling_rate).
  assert (Hsr : (0 < sr)%Q)
    by (unfold sr; change 0%Q with (inject_Z 0); rewrite <- Zlt_Qlt; lia).
  assert (Hd : (0 < d)%Q)
    by (unfold d; change 0%Q with (inject_Z 0); rewrite <- Zlt_Qlt; lia).
  assert (Hc0 : (0 <= c)%Q)
    by (unfold c; change 0%Q with (inject_Z 0); rewrite <- Zle_Qle; lia).
  assert (Hc2 : (2 * c <= d)%Q).
  { unfold c, d. change 2%Q with (inject_Z 2).
    rewrite <- inject_Z_mult, <- Zle_Qle. lia. }
  assert (Hq0 : (0 <= c / d)%Q).
  { apply Qle_shift_div_l; [exact Hd | lra]. }
  assert (Hq1 : (c / d <= 1 # 2)%Q).
  { apply Qle_shift_div_r; [exact Hd | lra]. }
  change (sr / 2)%Q with (sr * (1 # 2))%Q.
  split.
  - apply Qmult_le_0_compat; [exact Hq0 | apply Qlt_le_weak; exact Hsr].
  - rewrite (Qmult_comm sr).
    apply Qmult_le_compat_r; [exact Hq1 | apply Qlt_le_weak; exact Hsr].
Qed.

(** X23: for a positive integer sampling rate and two periods with integer
    bounds that start at or after time 0 and end later than they start,
    [detect_firing_rate_change] returns two rates that lie between 0 and
    half the sampling rate. *)
Theorem firing_rate_bounds
  signal sampling_rate baseline_period drug_period tr :
  (0 < sampling_rate)%Z ->
  (0 <= fst baseline_period < snd baseline_period)%Z ->
  (0 <= fst drug_period < snd drug_period)%Z ->
  exists baseline_rate drug_rate tr',
    detect_firing_rate_change signal sampling_rate baseline_period drug_period tr
      = (Ok (baseline_rate, drug_rate), tr') /\
    (0 <= baseline_rate)%Q /\
    (baseline_rate <= inject_Z sampling_rate / 2)%Q /\
    (0 <= drug_rate)%Q /\
    (drug_rate <= inject_Z sampling_rate / 2)%Q.
Proof.
  intros Hr Hb Hd.
  destruct (@window_rate_bounds
              (slice signal (fst baseline_period * sampling_rate)
                            (snd baseline_period * sampling_rate))
              (fst baseline_period * sampling_rate)%Z
              (snd baseline_period * sampling_rate)%Z
              sampling_rate Hr ltac:(nia) ltac:(apply slice_length; nia))
    as (b & Eb & Hb0 & Hb1).
  destruct (@window_rate_bounds
              (slice signal (fst drug_period * sampling_rate)
                            (snd drug_period * sampling_rate))
              (fst drug_period * sampling_rate)%Z
              (snd drug_period * sampling_rate)%Z
              sampling_rate Hr ltac:(nia) ltac:(apply slice_length; nia))
    as (d & Ed & Hd0 & Hd1).
  exists b, d. unfold detect_firing_rate_change, bind, lift, emit, ret.
  cbv zeta. rewrite Eb, Ed. eexists. split; [reflexivity |].
  repeat split; assumption.
Qed.

(** The theorem on ten samples at 1 Hz, with periods of five seconds. *)
Lemma firing_rate_bounds_witness :
  (0 < 1)%Z /\ (0 <= fst (0, 5) < snd (0, 5))%Z /\
  (0 <= fst (5, 10) < snd (5, 10))%Z /\
  exists baseline_rate drug_rate tr',
    detect_firing_rate_change [0; 1; 0; 1; 0; 0; 2; 0; 0; 0]%Q 1
      (0, 5)%Z (5, 10)%Z []
      = (Ok (baseline_rate, drug_rate), tr') /\
    (0 <= baseline_rate)%Q /\ (baseline_rate <= inject_Z 1 / 2)%Q /\
    (0 <= drug_rate)%Q /\ (drug_rate <= inject_Z 1 / 2)%Q.
Proof.
  split; [reflexivity |].
  split; [simpl; lia |]. split; [simpl; lia |].
  apply (@firing_rate_bounds [0; 1; 0; 1; 0; 0; 2; 0; 0; 0]%Q 1
           (0, 5)%Z (5, 10)%Z []); [reflexivity | simpl; lia | simpl; lia].
Defined.

Lemma slice_beyond x start stop :
  (Z.of_nat (length x) <= start)%Z -> slice x start stop = [].
Proof.
  intros H. unfold slice, adjust_index. cbv zeta.
  destruct (Z.ltb_spec start 0) as [? | _]; [lia |].
  replace (Z.to_nat (Z.min start (Z.of_nat (length x)))) with (length x) by lia.
  rewrite skipn_all. apply firstn_nil.
Qed.

(** X24: for integer period bounds and sampling rate, a drug period that
    starts at or after the end of the recording is not an error: its
    firing rate is returned as 0 (the baseline period covering at least
    one sample). *)
Theorem firing_rate_beyond_recording
  signal sampling_rate baseline_period drug_period tr :
  (fst baseline_period * sampling_rate
     <> snd baseline_period * sampling_rate)%Z ->
  (Z.of_nat (length signal) <= fst drug_period * sampling_rate
     < snd drug_period * sampling_rate)%Z ->
  exists baseline_rate drug_rate tr',
    detect_firing_rate_change signal sampling_rate baseline_period drug_period tr
      = (Ok (baseline_rate, drug_rate), tr') /\
    (drug_rate == 0)%Q.
Proof.
  intros Hb Hd. unfold detect_firing_rate_change, bind, lift, emit, ret,
    window_rate. cbv zeta.
  replace (snd baseline_period * sampling_rate
           - fst baseline_period * sampling_rate =? 0)%Z with false
    by (symmetry; apply Z.eqb_neq; lia).
  replace (snd drug_period * sampling_rate
           - fst drug_period * sampling_rate =? 0)%Z with false
    by (symmetry; apply Z.eqb_neq; lia).
  rewrite (@slice_beyond signal (fst drug_period * sampling_rate)
             (snd drug_period * sampling_rate)) by lia.
  do 3 eexists. split; [reflexivity |].
  change (fst (PeakFinding.find_peaks [] None)) with (@nil nat).
  simpl length. unfold Qdiv. ring.
Qed.

(** The theorem on a recording of three samples at 1 Hz, with the default
    periods of the script. *)
Lemma firing_rate_beyond_recording_witness :
  (fst (0, 10) * 1 <> snd (0, 10) * 1)%Z /\
  (Z.of_nat (length [0; 1; 0]%Q) <= fst (10, 20) * 1 < snd (10, 20) * 1)%Z /\
  exists baseline_rate drug_rate tr',
    detect_firing_rate_change [0; 1; 0]%Q 1 (0, 10)%Z (10, 20)%Z []
      = (Ok (baseline_rate, drug_rate), tr') /\
    (drug_rate == 0)%Q.
Proof.
  assert (H : (fst (0, 10) * 1 <> snd (0, 10) * 1)%Z) by (simpl; lia).
  assert (H' : (Z.of_nat (length [0; 1; 0]%Q) <= fst (10, 20) * 1
                  < snd (10, 20) * 1)%Z) by (simpl; lia).
  split; [exact H | split; [exact H' |]].
  exact (@firing_rate_beyond_recording [0; 1; 0]%Q 1 (0, 10)%Z (10, 20)%Z [] H H').
Defined.

End ResponseFacts.

(* ===================================================================== *)
(** * Detection of isolated spikes *)
(* ===================================================================== *)

Module IsolatedSpikes.

Import PeakFacts ActionPotential DetectionFacts DetectionBounds.

Lemma spaced_apart positions :
  StronglySorted (fun p q => p + 2 <= q) positions ->
  forall p q, In p positions -> In q positions -> p < q -> p + 2 <= q.
Proof.
  induction 1 as [| a l Hs IH Hall]; intros p q Hp Hq Hlt; [destruct Hp |].
  rewrite Forall_forall in Hall.
  destruct Hp as [<- | Hp], Hq as [<- | Hq].
  - lia.
  - apply Hall, Hq.
  - specialize (Hall _ Hp). lia.
  - apply IH; assumption.
Qed.

Lemma spaced_sorted positions :
  StronglySorted (fun p q => p + 2 <= q) positions ->
  StronglySorted lt positions.
Proof.
  induction 1 as [| a l Hs IH Hall]; constructor; [assumption |].
  eapply Forall_impl; [| exact Hall]. simpl. intros; lia.
Qed.

Lemma sorted_same_members l1 : forall l2,
  StronglySorted lt l1 -> StronglySorted lt l2 ->
  (forall i, In i l1 <-> In i l2) -> l1 = l2.
Proof.
  induction l1 as [| a l1 IH]; intros l2 H1 H2 Hm.
  - destruct l2 as [| b l2]; [reflexivity |].
    exfalso. apply (proj2 (Hm b)). left. reflexivity.
  - destruct l2 as [| b l2].
    { exfalso. apply (proj1 (Hm a)). left. reflexivity. }
    inversion H1 as [| ? ? Hs1 Ha]; subst.
    inversion H2 as [| ? ? Hs2 Hb]; subst.
    rewrite Forall_forall in Ha, Hb.
    assert (Hab : a = b).
    { destruct (proj1 (Hm a) (or_introl eq_refl)) as [E | Hin]; [auto |].
      destruct (proj2 (Hm b) (or_introl eq_refl)) as [E | Hin']; [auto |].
      specialize (Ha _ Hin'). specialize (Hb _ Hin). lia. }
    subst b. f_equal. apply IH; [assumption | assumption |].
    intros i. split; intros Hi.
    + destruct (proj1 (Hm i) (or_intror Hi)) as [E | Hin]; [| exact Hin].
      specialize (Ha _ Hi). lia.
    + destruct (proj2 (Hm i) (or_intror Hi)) as [E | Hin]; [| exact Hin].
      specialize (Hb _ Hi). lia.
Qed.

(** X25: on a recording that is zero except at isolated samples, at least
    two samples apart and away from both ends, where it is negative and
    reaches the threshold, spike detection reports exactly those samples. *)
Theorem isolated_spikes_detected signal threshold positions :
  StronglySorted (fun p q => p + 2 <= q) positions ->
  (forall i, In i positions ->
     1 <= i /\ i + 2 <= length signal /\
     (at_ signal i < 0)%Q /\ (at_ signal i <= - Qabs threshold)%Q) ->
  (forall i, ~ In i positions -> (at_ signal i == 0)%Q) ->
  spike_indices signal threshold = positions.
Proof.
  intros Hsp Hat Hzero.
  assert (Hnon : forall i, (0 <= at_ (negate signal) i)%Q).
  { intros i. rewrite at_negate.
    destruct (in_dec Nat.eq_dec i positions) as [Hin | Hout].
    - destruct (Hat i Hin) as (_ & _ & Hneg & _). lra.
    - rewrite (Hzero i Hout). lra. }
  assert (Hbeside : forall i j, In i positions -> (j + 1 = i \/ j = i + 1) ->
                    (at_ (negate signal) j == 0)%Q).
  { intros i j Hin Hj. rewrite at_negate.
    rewrite (Hzero j); [lra |]. intros Hinj.
    destruct (Nat.lt_trichotomy i j) as [Hlt | [-> | Hgt]]; [| lia |].
    - pose proof (@spaced_apart positions Hsp i j Hin Hinj Hlt). lia.
    - pose proof (@spaced_apart positions Hsp j i Hinj Hin Hgt). lia. }
  apply sorted_same_members;
    [apply spike_indices_sorted | apply spaced_sorted, Hsp |].
  intros i. rewrite spike_indices_iff. split.
  - intros ((l & r & Hp & ->) & _).
    destruct Hp as (Hl & Hlr & Hr & Hrise & Hflat & Hdrop).
    assert (Hin : In l positions).
    { destruct (in_dec Nat.eq_dec l positions) as [Hin | Hout]; [exact Hin |].
      exfalso. rewrite (at_negate signal l), (Hzero l Hout) in Hrise.
      pose proof (Hnon (l - 1)). lra. }
    assert (Hr' : r = l).
    { destruct (Nat.eq_dec r l) as [E | Hne]; [exact E | exfalso].
      specialize (Hflat (l + 1) ltac:(lia)).
      rewrite (Hbeside l (l + 1) Hin ltac:(lia)) in Hflat.
      destruct (Hat l Hin) as (_ & _ & Hneg & _).
      rewrite at_negate in Hflat. lra. }
    subst r. replace ((l + l) / 2) with l; [exact Hin |].
    replace (l + l) with (l * 2) by lia. rewrite Nat.div_mul by lia.
    reflexivity.
  - intros Hin. destruct (Hat i Hin) as (H1 & H2 & Hneg & Hthr). split.
    + exists i, i. split.
      * unfold plateau. rewrite negate_length.
        split; [lia | split; [lia | split; [lia | split; [| split]]]].
        -- rewrite (Hbeside i (i - 1) Hin ltac:(lia)), at_negate. lra.
        -- intros k Hk. replace k with i by lia. reflexivity.
        -- rewrite (Hbeside i (i + 1) Hin ltac:(lia)), at_negate. lra.
      * replace (i + i) with (i * 2) by lia. rewrite Nat.div_mul by lia.
        reflexivity.
    + rewrite at_negate. lra.
Qed.

(** The theorem on a recording with spikes at samples 1 and 4. *)
Lemma isolated_spikes_detected_witness :
  StronglySorted (fun p q => p + 2 <= q) [1; 4] /\
  spike_indices [0; -50; 0; 0; -40; 0]%Q (-30) = [1; 4].
Proof.
  assert (Hsp : StronglySorted (fun p q => p + 2 <= q) [1; 4])
    by (repeat constructor).
  split; [exact Hsp |].
  apply (@isolated_spikes_detected [0; -50; 0; 0; -40; 0]%Q (-30) [1; 4] Hsp).
  - intros i [<- | [<- | []]]; simpl length;
      (split; [lia | split; [lia | split; [reflexivity | vm_compute; discriminate]]]).
  - intros i Hi.
    destruct i as [| [| [| [| [| [| i]]]]]]; try reflexivity.
    + exfalso. apply Hi. left. reflexivity.
    + exfalso. apply Hi. right. left. reflexivity.
    + unfold at_. simpl. destruct i; reflexivity.
Defined.

End IsolatedSpikes.
